(** * downloading_pdf.py: the PDF fetcher and its batch driver

    A shallow embedding of [download_pdf] and [download_pdfs_from_list]
    (src/downloading_pdf.py).  Python strings are Rocq strings, one
    character per code point, restricted to code points below 256 (HTTP
    header values are Latin-1 in [http.client] anyway).  The file system,
    the network, the clock and the console are explicit: a [World] of
    oracles answers what the operating system and the remote host would,
    and a [State] records the files written and the trace of calls, printed
    lines and sleeps.  Python exceptions are values of an error monad.
    A second model of [download_pdf], [Faults], adds what the first one
    takes for granted, a console that can refuse a line and exceptions
    that no [except] clause catches, and is shown to agree with the first
    when neither happens. *)

From Stdlib Require Import ZArith Ascii String List Lia.
From stdpp Require Import base option list strings gmap pretty.

Local Open Scope Z_scope.

(** ** Python string operations used by the script *)

Module PyStr.

Definition ord (c : ascii) : N := N_of_ascii c.

Definition char_eqb (a b : ascii) : bool := Ascii.eqb a b.

(** [str.isspace] on code points below 256. *)
Definition isspace (c : ascii) : bool :=
  let n := ord c in
  ((9 <=? n) && (n <=? 13) || (28 <=? n) && (n <=? 32)
   || (n =? 133) || (n =? 160))%N.

Definition is_ascii_alpha (c : ascii) : bool :=
  let n := ord c in
  ((65 <=? n) && (n <=? 90) || (97 <=? n) && (n <=? 122))%N.

Definition is_digit (c : ascii) : bool :=
  let n := ord c in ((48 <=? n) && (n <=? 57))%N.

(** [str.lower] on one code point below 256. *)
Definition lower_char (c : ascii) : ascii :=
  let n := ord c in
  if ((65 <=? n) && (n <=? 90)
      || (192 <=? n) && (n <=? 222) && negb (n =? 215))%N
  then ascii_of_N (n + 32) else c.

Fixpoint lower (s : string) : string :=
  match s with
  | EmptyString => EmptyString
  | String c s' => String (lower_char c) (lower s')
  end.

(** [s.startswith(p)] *)
Fixpoint startswith (p s : string) : bool :=
  match p, s with
  | EmptyString, _ => true
  | String a p', String b s' => char_eqb a b && startswith p' s'
  | String _ _, EmptyString => false
  end.

(** [sub in s] *)
Fixpoint contains (sub s : string) : bool :=
  startswith sub s ||
  match s with
  | EmptyString => false
  | String _ s' => contains sub s'
  end.

(** [c in s] for a single character. *)
Fixpoint has_char (c : ascii) (s : string) : bool :=
  match s with
  | EmptyString => false
  | String a s' => char_eqb a c || has_char c s'
  end.

Fixpoint drop (n : nat) (s : string) : string :=
  match n, s with
  | O, _ => s
  | S n', String _ s' => drop n' s'
  | S _, EmptyString => EmptyString
  end.

Fixpoint take (n : nat) (s : string) : string :=
  match n, s with
  | O, _ => EmptyString
  | S n', String c s' => String c (take n' s')
  | S _, EmptyString => EmptyString
  end.

(** [s.endswith(p)]: the last [len(p)] characters of [s] are [p]. *)
Definition endswith (p s : string) : bool :=
  (String.length p <=? String.length s)%nat
  && String.eqb (drop (String.length s - String.length p) s) p.

(** [s.lstrip(chars)], the set of characters given as a predicate. *)
Fixpoint lstrip_by (f : ascii -> bool) (s : string) : string :=
  match s with
  | EmptyString => EmptyString
  | String c s' => if f c then lstrip_by f s' else s
  end.

Definition rstrip_by (f : ascii -> bool) (s : string) : string :=
  String.rev (lstrip_by f (String.rev s)).

Definition strip_by (f : ascii -> bool) (s : string) : string :=
  rstrip_by f (lstrip_by f s).

(** [s.strip()] *)
Definition strip (s : string) : string := strip_by isspace s.

(** [s.strip(chars)] *)
Definition strip_chars (chars s : string) : string :=
  strip_by (fun c => has_char c chars) s.

(** [s.replace(c, empty)] for each character [c] of a set. *)
Fixpoint remove_by (f : ascii -> bool) (s : string) : string :=
  match s with
  | EmptyString => EmptyString
  | String c s' => if f c then remove_by f s' else String c (remove_by f s')
  end.

(** [s.split(sep)] for a non-empty [sep]: occurrences are taken left to
    right and do not overlap.  [skip] counts the characters of the
    occurrence being stepped over; [cur] is the current piece, reversed. *)
Fixpoint split_go (sep s : string) (skip : nat) (cur : string) : list string :=
  match s with
  | EmptyString => [String.rev cur]
  | String c s' =>
      match skip with
      | S k => split_go sep s' k cur
      | O =>
          if startswith sep s
          then String.rev cur :: split_go sep s' (String.length sep - 1) EmptyString
          else split_go sep s' O (String c cur)
      end
  end.

Definition split (sep s : string) : list string := split_go sep s O EmptyString.

(** [s.find(c, start)] counted from the head of [s]: [i] is the index of
    the head; -1 when [c] does not occur. *)
Fixpoint find_from (f : ascii -> bool) (s : string) (i : Z) : Z :=
  match s with
  | EmptyString => -1
  | String a s' => if f a then i else find_from f s' (i + 1)
  end.

Definition find (c : ascii) (s : string) : Z := find_from (char_eqb c) s 0.

(** [s.rfind(c)]: index of the last occurrence, -1 when there is none. *)
Fixpoint rfind_from (c : ascii) (s : string) (i : Z) : Z :=
  match s with
  | EmptyString => -1
  | String a s' =>
      let r := rfind_from c s' (i + 1) in
      if 0 <=? r then r else if char_eqb a c then i else -1
  end.

Definition rfind (c : ascii) (s : string) : Z := rfind_from c s 0.

(** [s[i:]] and [s[:i]] for a non-negative [i]. *)
Definition slice_from (i : Z) (s : string) : string := drop (Z.to_nat i) s.
Definition slice_to (i : Z) (s : string) : string := take (Z.to_nat i) s.

(** Python truthiness of a [str]. *)
Definition truthy (s : string) : bool :=
  match s with EmptyString => false | String _ _ => true end.

(** [str(n)] for an [int]. *)
Definition str_of_int (n : Z) : string := pretty n.

End PyStr.

Definition dquote : ascii := "034"%char.

(** ** Exceptions and the monad of effects *)

(** The two [except] clauses of [download_pdf] tell exceptions apart by
    class: [requests.exceptions.RequestException] (and its subclasses:
    [HTTPError], [ConnectionError], [Timeout], ...) and every other
    subclass of [Exception] ([OSError] from the file system, [ValueError]
    from [urlparse], ...).  The argument is [str(e)]. *)
Inductive exn : Type :=
  | RequestException (msg : string)
  | OtherException (msg : string).

Definition str_of_exn (e : exn) : string :=
  match e with RequestException m => m | OtherException m => m end.

Inductive result (A : Type) : Type :=
  | Return (a : A)
  | Raise (e : exn).
Arguments Return {A} a.
Arguments Raise {A} e.

(** What the console, the scheduler and the call stack see, in order. *)
Inductive event : Type :=
  | EvCall (url output_dir : string)   (* entry into [download_pdf] *)
  | EvPrint (line : string)            (* [print(line)] *)
  | EvSleep (seconds : Z).             (* [time.sleep(seconds)] *)

Record State : Type := mkState {
  files : gmap string string;   (* path -> bytes written *)
  trace : list event            (* oldest first *)
}.

(** A computation runs from a state to a result and a state; the effects
    done before an exception was raised are kept. *)
Definition M (A : Type) : Type := State -> result A * State.

Definition ret {A} (a : A) : M A := fun st => (Return a, st).

Definition raise {A} (e : exn) : M A := fun st => (Raise e, st).

Definition bind {A B} (c : M A) (k : A -> M B) : M B :=
  fun st =>
    match c st with
    | (Return a, st') => k a st'
    | (Raise e, st') => (Raise e, st')
    end.

(** [try: body except ... as e: handler e] *)
Definition try_except {A} (body : M A) (handler : exn -> M A) : M A :=
  fun st =>
    match body st with
    | (Return a, st') => (Return a, st')
    | (Raise e, st') => handler e st'
    end.

Notation "x <-- c ;; k" := (bind c (fun x => k))
  (at level 100, c at next level, right associativity).
Notation "c ;;; k" := (bind c (fun _ => k))
  (at level 100, right associativity).

Definition emit (e : event) : M unit :=
  fun st => (Return tt, mkState (files st) (trace st ++ [e])).

Definition print (line : string) : M unit := emit (EvPrint line).

(** [time.sleep(seconds)] *)
Definition sleep (seconds : Z) : M unit := emit (EvSleep seconds).

(** ** The outside world *)

(** A response of [requests.get(..., stream=True)].  [body] lists the
    chunks that [iter_content] yields; when [body_error] is set the
    iterator raises it after the last of them. *)
Record Response : Type := mkResponse {
  status_code : Z;
  reason : string;
  resp_url : string;
  headers : list (string * string);
  body : list string;
  body_error : option exn
}.

(** Answers of the operating system, the remote hosts and the parts of the
    Python library that are not modelled; each may depend on everything
    that happened so far.  An error of the file system is the text of the
    [OSError]. *)
Record World : Type := mkWorld {
  mkdir_error : State -> string -> option string;
  requests_get : State -> string -> result Response;
  time_time : State -> Z;                      (* int(time.time()) *)
  open_error : State -> string -> option string;
  write_error : State -> string -> string -> option string;
  unquote_escaped : string -> string;          (* unquote on a string with a '%' *)
  netloc_error : string -> option string       (* ValueError of urlsplit on a netloc *)
}.

(** ** Library functions called by the script *)

(** [urllib.parse.urlparse] (CPython 3.11 and 3.12), as far as strings of
    code points below 256 go.  The validation of a host in brackets and of
    a host that is not ASCII is left to [netloc_error]. *)
Module UrlParse.
Import PyStr.

Record ParseResult : Type := mkParseResult {
  scheme : string;
  netloc : string;
  path : string;
  params : string;
  query : string;
  fragment : string
}.

(** The characters of the head of [s] up to the first one that satisfies
    [f], and the rest from that character on. *)
Fixpoint break_on (f : ascii -> bool) (s : string) : string * string :=
  match s with
  | EmptyString => (EmptyString, EmptyString)
  | String c s' =>
      if f c then (EmptyString, s)
      else let '(a, b) := break_on f s' in (String c a, b)
  end.

(** [s.split(c, 1)] when [c] occurs in [s]. *)
Definition split_once (c : ascii) (s : string) : string * string :=
  let '(a, b) := break_on (char_eqb c) s in (a, drop 1 b).

Definition is_c0_or_space (c : ascii) : bool := (ord c <=? 32)%N.

Definition is_unsafe (c : ascii) : bool :=
  let n := ord c in ((n =? 9) || (n =? 10) || (n =? 13))%N.

Definition is_scheme_char (c : ascii) : bool :=
  is_ascii_alpha c || is_digit c
  || char_eqb c "+" || char_eqb c "-" || char_eqb c ".".

Fixpoint all_chars (f : ascii -> bool) (s : string) : bool :=
  match s with
  | EmptyString => true
  | String c s' => f c && all_chars f s'
  end.

Definition head_is (f : ascii -> bool) (s : string) : bool :=
  match s with EmptyString => false | String c _ => f c end.

(** The scheme, when the text before the first ':' is one. *)
Definition split_scheme (url : string) : string * string :=
  let i := find ":" url in
  if (0 <? i) && head_is is_ascii_alpha url
     && all_chars is_scheme_char (slice_to i url)
  then (lower (slice_to i url), slice_from (i + 1) url)
  else (EmptyString, url).

(** [_splitnetloc(url, 2)] *)
Definition splitnetloc (url : string) : string * string :=
  break_on (fun c => char_eqb c "/" || char_eqb c "?" || char_eqb c "#")
           (drop 2 url).

Definition is_ascii_str (s : string) : bool :=
  all_chars (fun c => (ord c <? 128)%N) s.

Definition oracle_check (err : option string) : M unit :=
  match err with
  | Some msg => raise (OtherException msg)
  | None => ret tt
  end.

Definition urlsplit (w : World) (url0 : string)
  : M (string * string * string * string * string) :=
  let url := lstrip_by is_c0_or_space url0 in
  let url := remove_by is_unsafe url in
  let '(scheme, url) := split_scheme url in
  located <--
    (if startswith "//" url then
       let '(netloc, rest) := splitnetloc url in
       let lb := has_char "[" netloc in
       let rb := has_char "]" netloc in
       if lb && negb rb || rb && negb lb
       then raise (OtherException "Invalid IPv6 URL")
       else
         (if lb && rb then oracle_check (netloc_error w netloc) else ret tt) ;;;
         ret (netloc, rest)
     else ret (EmptyString, url)) ;;
  let '(netloc, url) := located in
  let '(url, fragment) :=
    if has_char "#" url then split_once "#" url else (url, EmptyString) in
  let '(url, query) :=
    if has_char "?" url then split_once "?" url else (url, EmptyString) in
  (if negb (truthy netloc) || is_ascii_str netloc then ret tt
   else oracle_check (netloc_error w netloc)) ;;;
  ret (scheme, netloc, url, query, fragment).

Definition uses_params : list string :=
  [EmptyString; "ftp"; "hdl"; "prospero"; "http"; "imap"; "https"; "shttp";
   "rtsp"; "rtspu"; "sip"; "sips"; "mms"; "sftp"; "tel"].

Definition splitparams (url : string) : string * string :=
  let i :=
    if has_char "/" url then
      let k := rfind "/" url in
      find_from (char_eqb ";") (slice_from k url) k
    else find ";" url in
  if has_char "/" url && (i <? 0) then (url, EmptyString)
  else (slice_to i url, slice_from (i + 1) url).

Definition urlparse (w : World) (url : string) : M ParseResult :=
  parts <-- urlsplit w url ;;
  let '(scheme, netloc, url, query, fragment) := parts in
  let '(url, params) :=
    if existsb (String.eqb scheme) uses_params && has_char ";" url
    then splitparams url else (url, EmptyString) in
  ret (mkParseResult scheme netloc url params query fragment).

End UrlParse.

(** [os.path.basename] (posixpath): the text after the last slash. *)
Definition basename (p : string) : string :=
  let i := PyStr.rfind "/" p + 1 in
  PyStr.slice_from i p.

(** [os.path.join(a, b)] (posixpath) *)
Definition path_join (a b : string) : string :=
  if PyStr.startswith "/" b then b
  else if negb (PyStr.truthy a) || PyStr.endswith "/" a then a +:+ b
  else a +:+ "/" +:+ b.

(** [urllib.parse.unquote]: a string without '%' is returned as it is. *)
Definition unquote (w : World) (s : string) : string :=
  if negb (PyStr.has_char "%" s) then s else unquote_escaped w s.

(** [response.headers] is a case-insensitive dictionary: names are compared
    in lower case.  Each name is listed once. *)
Fixpoint headers_lookup (name : string) (hs : list (string * string)) : option string :=
  match hs with
  | [] => None
  | (k, v) :: hs' =>
      if String.eqb (PyStr.lower k) (PyStr.lower name) then Some v
      else headers_lookup name hs'
  end.

(** [response.raise_for_status()] of requests: the message is set for a
    status from 400 to 599 and stays empty for any other status; an
    [HTTPError] is raised when it is set. *)
Definition http_error_msg (r : Response) : string :=
  let code := status_code r in
  if (400 <=? code) && (code <? 500) then
    PyStr.str_of_int code +:+ " Client Error: " +:+ reason r
    +:+ " for url: " +:+ resp_url r
  else if (500 <=? code) && (code <? 600) then
    PyStr.str_of_int code +:+ " Server Error: " +:+ reason r
    +:+ " for url: " +:+ resp_url r
  else EmptyString.

Definition raise_for_status (r : Response) : M unit :=
  if PyStr.truthy (http_error_msg r)
  then raise (RequestException (http_error_msg r))
  else ret tt.

(** ** [download_pdf] *)

Section Fetcher.
Import PyStr.
Variable w : World.

(** [Path(output_dir).mkdir(parents=True, exist_ok=True)]; the directory
    tree itself is not recorded in the state. *)
Definition mkdir (output_dir : string) : M unit :=
  fun st =>
    match mkdir_error w st output_dir with
    | Some msg => (Raise (OtherException msg), st)
    | None => (Return tt, st)
    end.

(** [requests.get(url, headers=headers, timeout=30, stream=True)]; the
    User-Agent header and the timeout are the same for every call and are
    part of what the oracle answers. *)
Definition http_get (url : string) : M Response :=
  fun st => (requests_get w st url, st).

(** [int(time.time())] *)
Definition now : M Z := fun st => (Return (time_time w st), st).

(** [not filename] for a parameter that is [None] or a string. *)
Definition falsy (filename : option string) : bool :=
  match filename with
  | None => true
  | Some s => negb (truthy s)
  end.

(** Lines 39-42: the name given by a Content-Disposition header. *)
Definition name_from_header (r : Response) (filename : option string)
  : option string :=
  match headers_lookup "Content-Disposition" (headers r) with
  | Some content_disp =>
      if contains "filename=" content_disp
      then Some (strip_chars (String dquote EmptyString)
                   (nth 1 (split "filename=" content_disp) EmptyString))
      else filename
  | None => filename
  end.

(** Lines 45-47: the last segment of the path of the URL. *)
Definition name_from_url (url : string) (filename : option string)
  : M (option string) :=
  if falsy filename then
    parsed_url <-- UrlParse.urlparse w url ;;
    ret (Some (unquote w (basename (UrlParse.path parsed_url))))
  else ret filename.

(** Line 51: the synthesized name, [t] being [int(time.time())]. *)
Definition document_name (t : Z) : string :=
  "document_" +:+ str_of_int t +:+ ".pdf".

(** Lines 50-51: a name that is empty or does not end with .pdf is
    replaced. *)
Definition name_or_document (filename : option string) : M string :=
  match filename with
  | Some s =>
      if negb (truthy s) || negb (endswith ".pdf" s) then
        t <-- now ;; ret (document_name t)
      else ret s
  | None => t <-- now ;; ret (document_name t)
  end.

(** Lines 37-55: the name under which the body is saved. *)
Definition resolve_filename (url : string) (r : Response)
    (filename : option string) : M string :=
  filename <--
    (if falsy filename then
       let filename := name_from_header r filename in
       filename <-- name_from_url url filename ;;
       name_or_document filename
     else ret (default EmptyString filename)) ;;
  ret (if endswith ".pdf" filename then filename else filename +:+ ".pdf").

(** [open(filepath, 'wb')]: the file is created or truncated. *)
Definition open_wb (filepath : string) : M unit :=
  fun st =>
    match open_error w st filepath with
    | Some msg => (Raise (OtherException msg), st)
    | None =>
        (Return tt, mkState (<[filepath := EmptyString]> (files st)) (trace st))
    end.

(** [f.write(chunk)] *)
Definition file_write (filepath chunk : string) : M unit :=
  fun st =>
    match write_error w st filepath chunk with
    | Some msg => (Raise (OtherException msg), st)
    | None =>
        (Return tt,
         mkState (alter (fun old => old +:+ chunk) filepath (files st)) (trace st))
    end.

(** Lines 62-64: the loop over [response.iter_content(chunk_size=8192)]. *)
Fixpoint write_chunks (filepath : string) (chunks : list string)
    (err : option exn) : M unit :=
  match chunks with
  | [] => match err with Some e => raise e | None => ret tt end
  | chunk :: rest =>
      (if truthy chunk then file_write filepath chunk else ret tt) ;;;
      write_chunks filepath rest err
  end.

(** Lines 21-67: the body of the [try]. *)
Definition download_pdf_try (url output_dir : string)
    (filename : option string) : M bool :=
  mkdir output_dir ;;;
  response <-- http_get url ;;
  raise_for_status response ;;;
  let content_type :=
    lower (default EmptyString (headers_lookup "content-type" (headers response))) in
  (if negb (contains "application/pdf" content_type)
   then print ("Warning: URL " +:+ url +:+ " might not be a PDF (Content-Type: "
               +:+ content_type +:+ ")")
   else ret tt) ;;;
  filename <-- resolve_filename url response filename ;;
  let filepath := path_join output_dir filename in
  open_wb filepath ;;;
  write_chunks filepath (body response) (body_error response) ;;;
  print ("Successfully downloaded: " +:+ filename) ;;;
  ret true.

(** Lines 69-74: the two [except] clauses; each prints its line and
    returns [False]. *)
Definition failure_line (url : string) (e : exn) : string :=
  match e with
  | RequestException _ =>
      "Error downloading " +:+ url +:+ ": " +:+ str_of_exn e
  | OtherException _ =>
      "Unexpected error downloading " +:+ url +:+ ": " +:+ str_of_exn e
  end.

Definition download_pdf_except (url : string) (e : exn) : M bool :=
  print (failure_line url e) ;;;
  ret false.

Definition download_pdf (url output_dir : string) (filename : option string)
  : M bool :=
  emit (EvCall url output_dir) ;;;
  try_except (download_pdf_try url output_dir filename)
             (download_pdf_except url).

(** ** [download_pdfs_from_list] *)

(** Lines 91-100: the [for] loop, with the two lists it appends to. *)
Fixpoint batch_loop (urls : list string) (output_dir : string) (delay : Z)
    (successful failed : list string) : M (list string * list string) :=
  match urls with
  | [] => ret (successful, failed)
  | url :: rest =>
      success <-- download_pdf (strip url) output_dir None ;;
      let successful := if success : bool then successful ++ [url] else successful in
      let failed := if success then failed else failed ++ [url] in
      (if 0 <? delay then sleep delay else ret tt) ;;;
      batch_loop rest output_dir delay successful failed
  end.

Definition download_pdfs_from_list (urls : list string) (output_dir : string)
    (delay : Z) : M (list string * list string) :=
  batch_loop urls output_dir delay [] [].

End Fetcher.

(** ** Reading a trace *)

Definition printed (t : list event) : list string :=
  omap (fun e => match e with EvPrint l => Some l | _ => None end) t.

Definition fetched (t : list event) : list string :=
  omap (fun e => match e with EvCall u _ => Some u | _ => None end) t.

Definition slept (t : list event) : list Z :=
  omap (fun e => match e with EvSleep d => Some d | _ => None end) t.

(** The calls and the sleeps, without the printed lines. *)
Definition schedule (t : list event) : list event :=
  List.filter (fun e => match e with EvPrint _ => false | _ => true end) t.

(** ** Auxiliary definitions for the statements *)

(** The state right after [download_pdf] was entered, and after a line was
    printed. *)
Definition entered (url output_dir : string) (st : State) : State :=
  mkState (files st) (trace st ++ [EvCall url output_dir]).

Definition logged (line : string) (st : State) : State :=
  mkState (files st) (trace st ++ [EvPrint line]).

(** A computation is quiet when all it adds to the trace are printed
    lines: it neither calls the Fetcher nor sleeps. *)
Definition quiet {A} (c : M A) : Prop :=
  forall st, exists ps,
    trace (snd (c st)) = trace st ++ ps /\ schedule ps = [].

(** A computation is stateless when it leaves the state as it found it. *)
Definition stateless {A} (c : M A) : Prop := forall st, snd (c st) = st.

(** The entries of [urls] whose flag is [b], in the order of [urls]. *)
Fixpoint picks (b : bool) (urls : list string) (flags : list bool) : list string :=
  match urls, flags with
  | url :: urls', flag :: flags' =>
      if Bool.eqb flag b then url :: picks b urls' flags' else picks b urls' flags'
  | _, _ => []
  end.

(** What one turn of the loop adds to the calls and sleeps. *)
Definition turn (output_dir : string) (delay : Z) (url : string) : list event :=
  EvCall (PyStr.strip url) output_dir
  :: (if 0 <? delay then [EvSleep delay] else []).

(** What lines 50-55 make of a candidate name when no filename was given. *)
Definition checked_name (w : World) (st : State) (name : string) : string :=
  if PyStr.endswith ".pdf" name then name
  else document_name (time_time w st).

(** The chunks of a body, one after the other. *)
Definition join_chunks (chunks : list string) : string :=
  fold_right String.append EmptyString chunks.

(** ** Scenarios *)

(** The state before anything ran: no file, an empty trace. *)
Definition st0 : State := mkState ∅ [].

(** A PDF served with status 200, in three chunks of which one is empty. *)
Definition pdf_response (url : string) : Response :=
  mkResponse 200 "OK" url [("Content-Type", "application/pdf")]
             ["%PDF-1.4 "; EmptyString; "body"] None.

(** A transport that serves a PDF for every URL; the file system never
    fails.  (In the scenarios no URL has a percent sign or a bracketed
    host, so the last two oracles are never asked.) *)
Definition quiet_world : World :=
  mkWorld (fun _ _ => None)
          (fun _ url => Return (pdf_response url))
          (fun _ => 1700000000)
          (fun _ _ => None) (fun _ _ _ => None)
          (fun s => s) (fun _ => None).

(** A transport that times out until the batch has slept once, and serves
    a PDF afterwards. *)
Definition flaky_world : World :=
  mkWorld (fun _ _ => None)
          (fun st url =>
             match slept (trace st) with
             | [] => Raise (RequestException "Read timed out.")
             | _ :: _ => Return (pdf_response url)
             end)
          (fun _ => 1700000000)
          (fun _ _ => None) (fun _ _ _ => None)
          (fun s => s) (fun _ => None).

(** A file system on which no directory can be created. *)
Definition readonly_world : World :=
  mkWorld (fun _ _ => Some "[Errno 13] Permission denied: 'out'")
          (fun _ url => Return (pdf_response url))
          (fun _ => 1700000000)
          (fun _ _ => None) (fun _ _ _ => None)
          (fun s => s) (fun _ => None).

(** A host that answers 304 Not Modified, with an empty body. *)
Definition not_modified_world : World :=
  mkWorld (fun _ _ => None)
          (fun _ url => Return (mkResponse 304 "Not Modified" url [] [] None))
          (fun _ => 1700000000)
          (fun _ _ => None) (fun _ _ _ => None)
          (fun s => s) (fun _ => None).

(** A host that answers 404 Not Found. *)
Definition not_found_world : World :=
  mkWorld (fun _ _ => None)
          (fun _ url => Return (mkResponse 404 "Not Found" url [] [] None))
          (fun _ => 1700000000)
          (fun _ _ => None) (fun _ _ _ => None)
          (fun s => s) (fun _ => None).

(** A host that has a.pdf and answers 404 for anything else. *)
Definition two_files_world : World :=
  mkWorld (fun _ _ => None)
          (fun _ url =>
             if PyStr.endswith "/a.pdf" url then Return (pdf_response url)
             else Return (mkResponse 404 "Not Found" url [] [] None))
          (fun _ => 1700000000)
          (fun _ _ => None) (fun _ _ _ => None)
          (fun s => s) (fun _ => None).

(** The path that [urlparse] finds in a URL, when it accepts the URL. *)
Definition path_of (url : string) : option string :=
  match UrlParse.urlparse quiet_world url st0 with
  | (Return parsed, _) => Some (UrlParse.path parsed)
  | (Raise _, _) => None
  end.

(** The header of the scenario: attachment; filename=<quote>report_2020.pdf<quote> *)
Definition report_2020_disposition : string :=
  "attachment; filename="
  +:+ String dquote ("report_2020.pdf" +:+ String dquote EmptyString).

(** A host that names the file in a Content-Disposition header. *)
Definition disposition_world : World :=
  mkWorld (fun _ _ => None)
          (fun _ url =>
             Return (mkResponse 200 "OK" url
                       [("Content-Type", "application/pdf");
                        ("content-disposition", report_2020_disposition)]
                       ["%PDF-1.4 "; EmptyString; "body"] None))
          (fun _ => 1700000000)
          (fun _ _ => None) (fun _ _ _ => None)
          (fun s => s) (fun _ => None).

(** ** The entry point *)

Definition newline : ascii := "010"%char.

(** Lines 107-120: the list of the example. *)
Definition pdf_urls : list string :=
  ["https://www.cmf.tn/sites/default/files/pdfs/emetteurs/informations/rapports-societes/rapport_annuel_sfbt_2011.pdf";
   "https://www.cmf.tn/sites/default/files/pdfs/emetteurs/informations/rapports-societes/rapport_annuel_sfbt_2012.pdf";
   "https://www.cmf.tn/sites/default/files/pdfs/emetteurs/informations/rapports-societes/rapport_annuel_sfbt_2013.pdf";
   "https://www.cmf.tn/sites/default/files/pdfs/emetteurs/informations/rapports-societes/rapport_annuel_sfbt_2014.pdf";
   "https://www.cmf.tn/sites/default/files/pdfs/emetteurs/informations/rapports-societes/rapport_annuel_sfbt_2015.pdf";
   "https://www.cmf.tn/sites/default/files/pdfs/emetteurs/informations/rapports-societes/rapport_annuel_sfbt_2016.pdf";
   "https://www.cmf.tn/sites/default/files/pdfs/emetteurs/informations/rapports-societes/rapport_annuel_sfbt_2017.pdf";
   "https://www.cmf.tn/sites/default/files/pdfs/emetteurs/informations/rapports-societes/rapport_sfbt_2018.pdf";
   "https://www.cmf.tn/sites/default/files/pdfs/emetteurs/informations/rapports-societes/rapport_du_conseil_dadministration_sfbt_2018.pdf";
   "https://www.cmf.tn/sites/default/files/pdfs/emetteurs/informations/rapports-societes/rapport_sfbt_2019.pdf";
   "https://www.cmf.tn/sites/default/files/pdfs/emetteurs/informations/rapports-societes/rapport_sfbt_2020.pdf";
   "https://www.cmf.tn/sites/default/files/pdfs/emetteurs/informations/rapports-societes/rapport_sfbt_2021.pdf";
   "https://www.cmf.tn/sites/default/files/pdfs/emetteurs/informations/rapports-societes/sfbt_rapport_annuel_de_gestion31-12-2022.pdf";
   "https://www.cmf.tn/sites/default/files/pdfs/emetteurs/informations/rapports-societes/rapport_sfbt_2023.pdf"].

(** The defaults of [download_pdfs_from_list], which the entry point
    relies on. *)
Definition default_output_dir : string := "downloaded_pdfs".
Definition default_delay : Z := 1.

Section EntryPoint.
Variable w : World.

(** Lines 132-133: one line per URL that failed. *)
Fixpoint print_failed (failed : list string) : M unit :=
  match failed with
  | [] => ret tt
  | url :: rest => print ("- " +:+ url) ;;; print_failed rest
  end.

(** Lines 130-134: the [while] loop.  It has no bound of its own: [fuel]
    is the number of rounds the model is allowed to run, and [None] says
    that the loop was still running when they were used up. *)
Fixpoint retry_loop (fuel : nat) (successful failed : list string)
    : M (option (list string * list string)) :=
  match failed with
  | [] => ret (Some (successful, failed))
  | _ :: _ =>
      match fuel with
      | O => ret None
      | S fuel' =>
          print (String newline "Failed URLs:") ;;;
          print_failed failed ;;;
          lists <-- download_pdfs_from_list w failed default_output_dir
                      default_delay ;;
          retry_loop fuel' (fst lists) (snd lists)
      end
  end.

(** Lines 123-134 on a list of URLs. *)
Definition main_on (urls : list string) (fuel : nat)
    : M (option (list string * list string)) :=
  lists <-- download_pdfs_from_list w urls default_output_dir default_delay ;;
  let successful := fst lists in
  let failed := snd lists in
  print (String newline "Download Summary:") ;;;
  print ("Successfully downloaded: "
         +:+ PyStr.str_of_int (Z.of_nat (length successful)) +:+ " PDFs") ;;;
  print ("Failed downloads: "
         +:+ PyStr.str_of_int (Z.of_nat (length failed)) +:+ " PDFs") ;;;
  retry_loop fuel successful failed.

(** Lines 105-134: the script run as a program. *)
Definition main (fuel : nat) : M (option (list string * list string)) :=
  main_on pdf_urls fuel.

End EntryPoint.

(** ** More auxiliary definitions *)

(** Line 32: the content type of a response, in lower case. *)
Definition content_type_of (r : Response) : string :=
  PyStr.lower (default EmptyString (headers_lookup "content-type" (headers r))).

(** Line 34: the warning about a content type that is not a PDF. *)
Definition warning_line (url : string) (r : Response) : string :=
  "Warning: URL " +:+ url +:+ " might not be a PDF (Content-Type: "
  +:+ content_type_of r +:+ ")".

(** The state after lines 31-34. *)
Definition after_warning (url : string) (r : Response) (st : State) : State :=
  if negb (PyStr.contains "application/pdf" (content_type_of r))
  then logged (warning_line url r) st else st.

(** The state with the file [p] holding [content]. *)
Definition with_file (p content : string) (st : State) : State :=
  mkState (<[p := content]> (files st)) (trace st).

(** A computation is silent when it leaves the trace as it found it. *)
Definition silent {A} (c : M A) : Prop :=
  forall st, trace (snd (c st)) = trace st.

(** The calls of the Fetcher that a round of the entry point makes are on
    entries of [urls]. *)
Definition fetches_within (urls : list string) (t : list event) : Prop :=
  forall u, u ∈ fetched t -> u ∈ PyStr.strip <$> urls.

(** A transport that never answers. *)
Definition offline_world : World :=
  mkWorld (fun _ _ => None)
          (fun _ _ => Raise (RequestException "Connection refused"))
          (fun _ => 1700000000)
          (fun _ _ => None) (fun _ _ _ => None)
          (fun s => s) (fun _ => None).

(** A transport whose stream breaks after two chunks. *)
Definition broken_stream_world : World :=
  mkWorld (fun _ _ => None)
          (fun _ url =>
             Return (mkResponse 200 "OK" url
                       [("Content-Type", "application/pdf")]
                       ["%PDF-1.4 "; "half"]
                       (Some (RequestException "Connection broken"))))
          (fun _ => 1700000000)
          (fun _ _ => None) (fun _ _ _ => None)
          (fun s => s) (fun _ => None).

(** A host that serves HTML with status 200. *)
Definition html_world : World :=
  mkWorld (fun _ _ => None)
          (fun _ url =>
             Return (mkResponse 200 "OK" url
                       [("Content-Type", "text/html; charset=UTF-8")]
                       ["<html></html>"] None))
          (fun _ => 1700000000)
          (fun _ _ => None) (fun _ _ _ => None)
          (fun s => s) (fun _ => None).

(** The name that a run of [download_pdf] resolves, after the response [r]
    passed the status check. *)
Definition resolved_name (w : World) (url dir : string) (fn : option string)
    (st : State) (r : Response) : result string :=
  fst (resolve_filename w url r fn (after_warning url r (entered url dir st))).

(** A state in which an older download is on the disk. *)
Definition stale_state : State :=
  mkState (<["out/a.pdf" := "an older version"]> (<["out/notes.txt" := "keep"]> ∅)) [].

(** A response that names its file, with a space in the name. *)
Definition annual_report_response : Response :=
  mkResponse 200 "OK" "https://x/dl"
    [("Content-Disposition",
      "attachment; filename="
      +:+ String dquote ("rapport annuel 2021.pdf" +:+ String dquote EmptyString))]
    ["%PDF-1.4"] None.

(** A disk on which no file can be opened for writing. *)
Definition full_disk_world : World :=
  mkWorld (fun _ _ => None) (fun _ url => Return (pdf_response url))
          (fun _ => 1700000000)
          (fun _ _ => Some "[Errno 28] No space left on device")
          (fun _ _ _ => None) (fun s => s) (fun _ => None).

(** Lines 126-128: the three lines of the summary. *)
Definition summary (successful failed : list string) : list string :=
  [String newline "Download Summary:";
   "Successfully downloaded: "
   +:+ PyStr.str_of_int (Z.of_nat (length successful)) +:+ " PDFs";
   "Failed downloads: "
   +:+ PyStr.str_of_int (Z.of_nat (length failed)) +:+ " PDFs"].

(** The state after the summary was printed. *)
Definition summarized (successful failed : list string) (st : State) : State :=
  mkState (files st) (trace st ++ (EvPrint <$> summary successful failed)).

(** A host that names the file by an absolute path. *)
Definition absolute_name_response : Response :=
  mkResponse 200 "OK" "https://x/dl"
    [("Content-Type", "application/pdf");
     ("Content-Disposition", "attachment; filename=/tmp/elsewhere.pdf")]
    ["%PDF-1.4"] None.

Definition absolute_name_world : World :=
  mkWorld (fun _ _ => None) (fun _ _ => Return absolute_name_response)
          (fun _ => 1700000000)
          (fun _ _ => None) (fun _ _ _ => None)
          (fun s => s) (fun _ => None).

(** ** What trimming means *)

(** Every character of [s] is whitespace ([str.isspace]). *)
Fixpoint all_space (s : string) : bool :=
  match s with
  | EmptyString => true
  | String c s' => PyStr.isspace c && all_space s'
  end.

(** The first character of [s], if there is one, is whitespace. *)
Definition starts_with_space (s : string) : bool :=
  match s with
  | EmptyString => false
  | String c _ => PyStr.isspace c
  end.

(** The last character of [s], if there is one, is whitespace. *)
Fixpoint ends_with_space (s : string) : bool :=
  match s with
  | EmptyString => false
  | String c s' =>
      match s' with
      | EmptyString => PyStr.isspace c
      | String _ _ => ends_with_space s'
      end
  end.

(** [arg] is [url] without its leading and trailing whitespace: it is what
    is left of [url] between a run of whitespace at the head and a run of
    whitespace at the tail, and neither starts nor ends with whitespace. *)
Definition trimmed_from (url arg : string) : Prop :=
  exists lead trail,
    url = lead +:+ arg +:+ trail
    /\ all_space lead = true
    /\ all_space trail = true
    /\ starts_with_space arg = false
    /\ ends_with_space arg = false.

(** A PDF served with the Content-Disposition header of the scenario. *)
Definition disposition_response (url : string) : Response :=
  mkResponse 200 "OK" url
    [("Content-Type", "application/pdf");
     ("content-disposition", report_2020_disposition)]
    ["%PDF-1.4 "; EmptyString; "body"] None.

(** ** [download_pdf] with a console that can fail and with interrupts *)

(** The model above takes two things from the environment for granted: the
    console accepts every line, and nothing is raised but instances of
    [Exception].  [Faults] drops both: [print] can raise
    ([UnicodeEncodeError] on a console that cannot encode the line,
    [OSError] on a closed pipe), and an exception outside [Exception]
    ([KeyboardInterrupt], [SystemExit]) can arrive before any operation.
    Neither [except] clause of [download_pdf] catches the latter, and
    nothing catches what is raised inside a clause. *)
Module Faults.

Inductive thrown : Type :=
  | AnException (e : exn)            (* an instance of [Exception] *)
  | ABaseException (name : string).  (* [KeyboardInterrupt], [SystemExit], ... *)

Inductive outcome (A : Type) : Type :=
  | Done (a : A)
  | Thrown (t : thrown).
Arguments Done {A} a.
Arguments Thrown {A} t.

Record Env : Type := mkEnv {
  world : World;
  (* the text of the exception that [print] raises on this line *)
  print_error : State -> string -> option string;
  (* the exception outside [Exception] that arrives at this point *)
  interrupt : State -> option string
}.

Definition IO (A : Type) : Type := State -> outcome A * State.

Definition io_ret {A} (a : A) : IO A := fun st => (Done a, st).

Definition io_bind {A B} (c : IO A) (k : A -> IO B) : IO B :=
  fun st =>
    match c st with
    | (Done a, st') => k a st'
    | (Thrown t, st') => (Thrown t, st')
    end.

Notation "x <~~ c ;; k" := (io_bind c (fun x => k))
  (at level 100, c at next level, right associativity).
Notation "c ;;;; k" := (io_bind c (fun _ => k))
  (at level 100, right associativity).

(** A result of the first model, read in this one. *)
Definition embed {A} (r : result A * State) : outcome A * State :=
  match r with
  | (Return a, st) => (Done a, st)
  | (Raise e, st) => (Thrown (AnException e), st)
  end.

Section Fetcher.
Variable env : Env.

(** One operation of the script: an interrupt may arrive before it starts;
    otherwise it runs as in the first model. *)
Definition op {A} (c : M A) : IO A :=
  fun st =>
    match interrupt env st with
    | Some name => (Thrown (ABaseException name), st)
    | None => embed (c st)
    end.

(** [print(line)] *)
Definition print (line : string) : IO unit :=
  fun st =>
    match interrupt env st with
    | Some name => (Thrown (ABaseException name), st)
    | None =>
        match print_error env st line with
        | Some msg => (Thrown (AnException (OtherException msg)), st)
        | None => (Done tt, logged line st)
        end
    end.

(** Lines 62-64 *)
Fixpoint write_chunks (filepath : string) (chunks : list string)
    (err : option exn) : IO unit :=
  match chunks with
  | [] => match err with Some e => op (raise e) | None => io_ret tt end
  | chunk :: rest =>
      (if PyStr.truthy chunk then op (file_write (world env) filepath chunk)
       else io_ret tt) ;;;;
      write_chunks filepath rest err
  end.

(** Lines 21-67: the body of the [try]. *)
Definition download_pdf_try (url output_dir : string)
    (filename : option string) : IO bool :=
  op (mkdir (world env) output_dir) ;;;;
  response <~~ op (http_get (world env) url) ;;
  op (raise_for_status response) ;;;;
  (if negb (PyStr.contains "application/pdf" (content_type_of response))
   then print (warning_line url response)
   else io_ret tt) ;;;;
  filename <~~ op (resolve_filename (world env) url response filename) ;;
  let filepath := path_join output_dir filename in
  op (open_wb (world env) filepath) ;;;;
  write_chunks filepath (body response) (body_error response) ;;;;
  print ("Successfully downloaded: " +:+ filename) ;;;;
  io_ret true.

(** Lines 20-74: an instance of [Exception] raised by the body goes to one
    of the two clauses, which prints its line and returns [False]; what the
    clause itself raises, and what is not an instance of [Exception],
    leaves the function. *)
Definition download_pdf (url output_dir : string) (filename : option string)
    : IO bool :=
  fun st =>
    match download_pdf_try url output_dir filename (entered url output_dir st) with
    | (Done success, st') => (Done success, st')
    | (Thrown (AnException e), st') =>
        (print (failure_line url e) ;;;; io_ret false) st'
    | (Thrown (ABaseException name), st') => (Thrown (ABaseException name), st')
    end.

End Fetcher.

(** A computation that raises nothing outside [Exception]. *)
Definition tame {A} (c : IO A) : Prop :=
  forall st name st', c st <> (Thrown (ABaseException name), st').

End Faults.

(** A console that can only encode ASCII. *)
Definition ascii_console_env : Faults.Env :=
  Faults.mkEnv quiet_world
    (fun _ line =>
       if UrlParse.is_ascii_str line then None
       else Some "'ascii' codec can't encode character: ordinal not in range(128)")
    (fun _ => None).

(** https://x/e.pdf with an acute accent on the e (code point 233). *)
Definition accented_url : string :=
  "https://x/" +:+ String "233"%char ".pdf".

(** The file that [accented_url] names, in the directory out. *)
Definition accented_path : string :=
  "out/" +:+ String "233"%char ".pdf".

(** Control-C arrives once [download_pdf] was entered. *)
Definition interrupted_env : Faults.Env :=
  Faults.mkEnv quiet_world (fun _ _ => None)
    (fun st =>
       match fetched (trace st) with
       | [] => None
       | _ :: _ => Some "KeyboardInterrupt"
       end).

(** A console that refuses the line of a success and accepts the others. *)
Definition picky_console_env : Faults.Env :=
  Faults.mkEnv quiet_world
    (fun _ line =>
       if PyStr.startswith "Successfully" line
       then Some "[Errno 32] Broken pipe" else None)
    (fun _ => None).

(** * Properties *)

(** ** Basic facts about the strings and the monad *)

Example strip_example :
  PyStr.strip "  https://x/a.pdf
" = "https://x/a.pdf".
Proof. reflexivity. Qed.

Example split_example :
  PyStr.split "filename=" "attachment; filename=a.pdf; filename=b"
  = ["attachment; "; "a.pdf; "; "b"].
Proof. reflexivity. Qed.

Example strip_chars_example :
  PyStr.strip_chars (String dquote EmptyString)
    (String dquote ("a.pdf" +:+ String dquote EmptyString)) = "a.pdf".
Proof. reflexivity. Qed.

Lemma schedule_app (t1 t2 : list event) :
  schedule (t1 ++ t2) = schedule t1 ++ schedule t2.
Proof. unfold schedule. apply List.filter_app. Qed.

Lemma quiet_ret {A} (a : A) : quiet (ret a).
Proof. intros st. exists []. simpl. by rewrite app_nil_r. Qed.

Lemma quiet_raise {A} (e : exn) : quiet (@raise A e).
Proof. intros st. exists []. simpl. by rewrite app_nil_r. Qed.

Lemma quiet_print (line : string) : quiet (print line).
Proof. intros st. exists [EvPrint line]. done. Qed.

Lemma quiet_bind {A B} (c : M A) (k : A -> M B) :
  quiet c -> (forall a, quiet (k a)) -> quiet (bind c k).
Proof.
  intros Hc Hk st. unfold bind.
  destruct (Hc st) as (ps & Hps & Hs).
  destruct (c st) as [[a|e] st1]; simpl in *.
  - destruct (Hk a st1) as (qs & Hqs & Hq).
    exists (ps ++ qs). rewrite Hqs, Hps, schedule_app, Hs, Hq.
    by rewrite app_assoc.
  - by exists ps.
Qed.

Lemma quiet_try_except {A} (c : M A) (h : exn -> M A) :
  quiet c -> (forall e, quiet (h e)) -> quiet (try_except c h).
Proof.
  intros Hc Hh st. unfold try_except.
  destruct (Hc st) as (ps & Hps & Hs).
  destruct (c st) as [[a|e] st1]; simpl in *.
  - by exists ps.
  - destruct (Hh e st1) as (qs & Hqs & Hq).
    exists (ps ++ qs). rewrite Hqs, Hps, schedule_app, Hs, Hq.
    by rewrite app_assoc.
Qed.

(** An operation that leaves the trace alone is quiet. *)
Lemma quiet_same_trace {A} (c : M A) :
  (forall st, trace (snd (c st)) = trace st) -> quiet c.
Proof. intros H st. exists []. by rewrite H, app_nil_r. Qed.

Ltac quiet_step :=
  first
    [ apply quiet_ret | apply quiet_raise | apply quiet_print
    | apply quiet_bind; [ | intros ? ]
    | apply quiet_try_except; [ | intros ? ]
    | match goal with
      | |- quiet (match ?x with _ => _ end) => destruct x
      | |- quiet (if ?b then _ else _) => destruct b
      | |- quiet (let '(_, _) := ?x in _) => destruct x
      end ].

Ltac quiet_solve := repeat quiet_step.

(** ** Facts about strings *)

Lemma str_app_cons (x : ascii) (a b : string) :
  String x a +:+ b = String x (a +:+ b).
Proof. reflexivity. Qed.

Lemma str_app_assoc (a b c : string) : (a +:+ b) +:+ c = a +:+ (b +:+ c).
Proof.
  induction a as [|x a IH]; [ done | ]. by rewrite !str_app_cons, IH.
Qed.

Lemma str_app_nil_r (a : string) : a +:+ EmptyString = a.
Proof.
  induction a as [|x a IH]; [ done | ]. by rewrite str_app_cons, IH.
Qed.

Lemma str_length_app (a b : string) :
  String.length (a +:+ b) = (String.length a + String.length b)%nat.
Proof.
  induction a as [|x a IH]; [ done | ]. rewrite str_app_cons. simpl.
  by rewrite IH.
Qed.

Lemma drop_app_length (a b : string) : PyStr.drop (String.length a) (a +:+ b) = b.
Proof.
  induction a as [|x a IH]; [ done | ]. rewrite str_app_cons. exact IH.
Qed.

Lemma endswith_app (a p : string) : PyStr.endswith p (a +:+ p) = true.
Proof.
  unfold PyStr.endswith. rewrite str_length_app.
  replace (String.length a + String.length p - String.length p)%nat
    with (String.length a) by lia.
  rewrite drop_app_length, String.eqb_refl.
  rewrite andb_true_r. apply Nat.leb_le. lia.
Qed.

Lemma truthy_app_r (a b : string) :
  PyStr.truthy b = true -> PyStr.truthy (a +:+ b) = true.
Proof. by destruct a. Qed.

Lemma printed_app (t1 t2 : list event) : printed (t1 ++ t2) = printed t1 ++ printed t2.
Proof. unfold printed. apply omap_app. Qed.

Lemma char_eqb_sym (a b : ascii) : PyStr.char_eqb a b = PyStr.char_eqb b a.
Proof. apply Ascii.eqb_sym. Qed.

Lemma rev_app_app (a b acc : string) :
  String.rev_app (a +:+ b) acc = String.rev_app b (String.rev_app a acc).
Proof.
  revert acc. induction a as [|x a IH]; intros acc; [ done | ].
  rewrite str_app_cons. simpl. apply IH.
Qed.

Lemma rev_app_rev_app (a b c : string) :
  String.rev_app (String.rev_app a b) c = String.rev_app b (a +:+ c).
Proof.
  revert b c. induction a as [|x a IH]; intros b c; [ done | ].
  simpl. rewrite IH. by rewrite str_app_cons.
Qed.

Lemma rev_rev (a : string) : String.rev (String.rev a) = a.
Proof. unfold String.rev. rewrite rev_app_rev_app. simpl. apply str_app_nil_r. Qed.

Lemma has_char_rev_app c (a b : string) :
  PyStr.has_char c (String.rev_app a b) = PyStr.has_char c a || PyStr.has_char c b.
Proof.
  revert b. induction a as [|x a IH]; intros b; [ done | ].
  simpl. rewrite IH. simpl.
  by destruct (PyStr.char_eqb x c), (PyStr.has_char c a),
     (PyStr.has_char c b).
Qed.

Section FetcherFacts.
Variable w : World.

Lemma quiet_mkdir d : quiet (mkdir w d).
Proof.
  apply quiet_same_trace. intros st. unfold mkdir.
  by destruct (mkdir_error w st d).
Qed.

Lemma quiet_http_get u : quiet (http_get w u).
Proof. by apply quiet_same_trace. Qed.

Lemma quiet_now : quiet (now w).
Proof. by apply quiet_same_trace. Qed.

Lemma quiet_open_wb p : quiet (open_wb w p).
Proof.
  apply quiet_same_trace. intros st. unfold open_wb.
  by destruct (open_error w st p).
Qed.

Lemma quiet_file_write p c : quiet (file_write w p c).
Proof.
  apply quiet_same_trace. intros st. unfold file_write.
  by destruct (write_error w st p c).
Qed.

Lemma quiet_write_chunks p chunks err : quiet (write_chunks w p chunks err).
Proof.
  induction chunks as [|c chunks IH]; simpl.
  - quiet_solve.
  - apply quiet_bind; [ | intros _; exact IH ].
    destruct (PyStr.truthy c); [ apply quiet_file_write | apply quiet_ret ].
Qed.

Lemma quiet_oracle_check err : quiet (UrlParse.oracle_check err).
Proof. unfold UrlParse.oracle_check. quiet_solve. Qed.

Lemma quiet_urlsplit u : quiet (UrlParse.urlsplit w u).
Proof.
  unfold UrlParse.urlsplit.
  destruct (UrlParse.split_scheme _) as [sch rest].
  apply quiet_bind.
  - destruct (PyStr.startswith _ _); [ | apply quiet_ret ].
    destruct (UrlParse.splitnetloc rest) as [nl rest'].
    destruct (_ || _); [ apply quiet_raise | ].
    apply quiet_bind; [ | intros _; apply quiet_ret ].
    destruct (_ && _); [ apply quiet_oracle_check | apply quiet_ret ].
  - intros [nl rest'].
    destruct (if PyStr.has_char "#" rest' then _ else _) as [u1 frag].
    destruct (if PyStr.has_char "?" u1 then _ else _) as [u2 q].
    apply quiet_bind; [ | intros _; apply quiet_ret ].
    destruct (_ || _); [ apply quiet_ret | apply quiet_oracle_check ].
Qed.

Lemma quiet_urlparse u : quiet (UrlParse.urlparse w u).
Proof.
  unfold UrlParse.urlparse. apply quiet_bind; [ apply quiet_urlsplit | ].
  intros [[[[sch nl] p] q] f].
  destruct (if _ && _ then _ else _). apply quiet_ret.
Qed.

Lemma quiet_resolve_filename u r fn : quiet (resolve_filename w u r fn).
Proof.
  unfold resolve_filename. apply quiet_bind; [ | intros ?; apply quiet_ret ].
  destruct (falsy fn); [ | apply quiet_ret ].
  apply quiet_bind.
  - unfold name_from_url. destruct (falsy _); [ | apply quiet_ret ].
    apply quiet_bind; [ apply quiet_urlparse | intros ?; apply quiet_ret ].
  - intros o. unfold name_or_document.
    destruct o as [s|].
    + destruct (_ || _); [ | apply quiet_ret ].
      apply quiet_bind; [ apply quiet_now | intros ?; apply quiet_ret ].
    + apply quiet_bind; [ apply quiet_now | intros ?; apply quiet_ret ].
Qed.

Lemma quiet_raise_for_status r : quiet (raise_for_status r).
Proof. unfold raise_for_status. quiet_solve. Qed.

Lemma quiet_download_pdf_try u d fn : quiet (download_pdf_try w u d fn).
Proof.
  unfold download_pdf_try.
  apply quiet_bind; [ apply quiet_mkdir | intros _ ].
  apply quiet_bind; [ apply quiet_http_get | intros r ].
  apply quiet_bind; [ apply quiet_raise_for_status | intros _ ].
  apply quiet_bind; [ destruct (negb _); [ apply quiet_print | apply quiet_ret ] | intros _ ].
  apply quiet_bind; [ apply quiet_resolve_filename | intros name ].
  apply quiet_bind; [ apply quiet_open_wb | intros _ ].
  apply quiet_bind; [ apply quiet_write_chunks | intros _ ].
  apply quiet_bind; [ apply quiet_print | intros _; apply quiet_ret ].
Qed.

End FetcherFacts.

(** ** The Fetcher returns, whatever happens inside the [try] *)

Lemma bind_Return {A B} (c : M A) (k : A -> M B) st b st' :
  bind c k st = (Return b, st') ->
  exists a st1, c st = (Return a, st1) /\ k a st1 = (Return b, st').
Proof.
  unfold bind. destruct (c st) as [[a|e] st1]; [ eauto | discriminate ].
Qed.

Lemma bind_step {A B} (c : M A) (k : A -> M B) st a st1 :
  c st = (Return a, st1) -> bind c k st = k a st1.
Proof. unfold bind. by intros ->. Qed.

Lemma bind_raise {A B} (c : M A) (k : A -> M B) st e st1 :
  c st = (Raise e, st1) -> bind c k st = (Raise e, st1).
Proof. unfold bind. by intros ->. Qed.

Section DownloadPdf.
Variable w : World.

Lemma download_pdf_unfold url dir fn st :
  download_pdf w url dir fn st =
  match download_pdf_try w url dir fn (entered url dir st) with
  | (Return b, st2) => (Return b, st2)
  | (Raise e, st2) => (Return false, logged (failure_line url e) st2)
  end.
Proof.
  unfold download_pdf, bind, emit, try_except, entered.
  destruct (download_pdf_try _ _ _ _ _) as [[b|e] st2]; reflexivity.
Qed.

Lemma download_pdf_try_true url dir fn st b st' :
  download_pdf_try w url dir fn st = (Return b, st') -> b = true.
Proof.
  unfold download_pdf_try. intros H.
  repeat (apply bind_Return in H as (? & ? & _ & H)).
  unfold ret in H. congruence.
Qed.

(** Every call returns a boolean, and all it adds to the calls and sleeps
    of the trace is its own entry. *)
Lemma download_pdf_schedule url dir fn st :
  exists b st',
    download_pdf w url dir fn st = (Return b, st')
    /\ schedule (trace st') = schedule (trace st) ++ [EvCall url dir].
Proof.
  rewrite download_pdf_unfold.
  destruct (quiet_download_pdf_try w url dir fn (entered url dir st))
    as (ps & Hps & Hs).
  destruct (download_pdf_try _ _ _ _ _) as [[b|e] st2]; simpl in *.
  - exists b, st2. split; [ done | ].
    by rewrite Hps, !schedule_app, Hs, app_nil_r.
  - exists false, (logged (failure_line url e) st2). split; [ done | ].
    simpl. rewrite Hps, !schedule_app, Hs. simpl. by rewrite !app_nil_r.
Qed.

End DownloadPdf.

(** ** The batch loop *)

Section Batch.
Variable w : World.

Lemma batch_loop_spec urls dir delay : forall successful failed st,
  exists flags st',
    length flags = length urls
    /\ batch_loop w urls dir delay successful failed st
       = (Return (successful ++ picks true urls flags,
                  failed ++ picks false urls flags), st')
    /\ schedule (trace st')
       = schedule (trace st) ++ flat_map (turn dir delay) urls.
Proof.
  induction urls as [|url urls IH]; intros successful failed st.
  - exists [], st. simpl. by rewrite !app_nil_r.
  - destruct (download_pdf_schedule w (PyStr.strip url) dir None st)
      as (b & st1 & Hrun & Hsch).
    set (st2 := if 0 <? delay
                then mkState (files st1) (trace st1 ++ [EvSleep delay])
                else st1).
    destruct (IH (if b then successful ++ [url] else successful)
                 (if b then failed else failed ++ [url]) st2)
      as (flags & st' & Hlen & Hloop & Htr).
    exists (b :: flags), st'. split; [ simpl; by rewrite Hlen | ]. split.
    + cbn [batch_loop]. rewrite (bind_step _ _ _ _ _ Hrun).
      assert (Hsleep : (if 0 <? delay then sleep delay else ret tt) st1
                       = (Return tt, st2)).
      { unfold st2. by destruct (0 <? delay). }
      rewrite (bind_step _ _ _ _ _ Hsleep), Hloop.
      destruct b; simpl; by rewrite <- ?app_assoc.
    + rewrite Htr. unfold st2, turn. cbn [flat_map].
      destruct (0 <? delay); simpl;
        rewrite ?schedule_app, Hsch; simpl; by rewrite <- !app_assoc.
Qed.

Lemma download_pdfs_from_list_spec urls dir delay st :
  exists flags st',
    length flags = length urls
    /\ download_pdfs_from_list w urls dir delay st
       = (Return (picks true urls flags, picks false urls flags), st')
    /\ schedule (trace st')
       = schedule (trace st) ++ flat_map (turn dir delay) urls.
Proof. apply (batch_loop_spec urls dir delay [] [] st). Qed.

End Batch.

Lemma picks_length (urls : list string) : forall flags,
  length flags = length urls ->
  (length (picks true urls flags) + length (picks false urls flags))%nat
  = length urls.
Proof.
  induction urls as [|u urls IH]; intros [|[] flags] Hlen;
    simpl in *; try done;
    specialize (IH flags ltac:(lia)); lia.
Qed.

Lemma picks_perm (urls : list string) : forall flags,
  length flags = length urls ->
  picks true urls flags ++ picks false urls flags ≡ₚ urls.
Proof.
  induction urls as [|u urls IH]; intros [|[] flags] Hlen;
    simpl in *; try done.
  - f_equiv. apply IH. lia.
  - rewrite <- Permutation_middle. f_equiv. apply IH. lia.
Qed.

Lemma picks_sublist b (urls : list string) : forall flags,
  picks b urls flags `sublist_of` urls.
Proof.
  induction urls as [|u urls IH]; intros [|f flags]; simpl;
    try apply sublist_nil_l.
  destruct (Bool.eqb f b); [ apply sublist_skip | apply sublist_cons ]; apply IH.
Qed.

Lemma fetched_schedule (t : list event) : fetched (schedule t) = fetched t.
Proof.
  induction t as [|[] t IH]; simpl; try done; unfold fetched in *; simpl;
    by rewrite ?IH.
Qed.

Lemma slept_schedule (t : list event) : slept (schedule t) = slept t.
Proof.
  induction t as [|[] t IH]; simpl; try done; unfold slept in *; simpl;
    by rewrite ?IH.
Qed.

Lemma fetched_app (t1 t2 : list event) : fetched (t1 ++ t2) = fetched t1 ++ fetched t2.
Proof. unfold fetched. apply omap_app. Qed.

Lemma slept_app (t1 t2 : list event) : slept (t1 ++ t2) = slept t1 ++ slept t2.
Proof. unfold slept. apply omap_app. Qed.

Lemma fetched_turns dir delay (urls : list string) :
  fetched (flat_map (turn dir delay) urls) = PyStr.strip <$> urls.
Proof.
  induction urls as [|u urls IH]; [ done | ].
  cbn [flat_map]. rewrite fetched_app, IH. unfold turn.
  by destruct (0 <? delay).
Qed.

Lemma slept_turns dir delay (urls : list string) :
  slept (flat_map (turn dir delay) urls)
  = if 0 <? delay then replicate (length urls) delay else [].
Proof.
  induction urls as [|u urls IH]; [ by destruct (0 <? delay) | ].
  cbn [flat_map]. rewrite slept_app, IH. unfold turn.
  by destruct (0 <? delay).
Qed.

(** ** The model at work *)

Example path_of_example :
  path_of "https://www.cmf.tn/sites/default/files/rapport_sfbt_2023.pdf"
  = Some "/sites/default/files/rapport_sfbt_2023.pdf"
  /\ path_of " HTTP://x/dl;v=1/b;c?file=/report.pdf#top" = Some "/dl;v=1/b"
  /\ path_of "http://report.pdf" = Some EmptyString
  /\ path_of "http://[::1/report.pdf" = None.
Proof. repeat split; reflexivity. Qed.

Example basename_example :
  basename "/sites/default/files/report.pdf" = "report.pdf"
  /\ basename "/sites/default/" = EmptyString
  /\ basename "report.pdf" = "report.pdf".
Proof. repeat split; reflexivity. Qed.

Example path_join_example :
  path_join "downloaded_pdfs" "a.pdf" = "downloaded_pdfs/a.pdf"
  /\ path_join "out/" "a.pdf" = "out/a.pdf"
  /\ path_join "out" "/tmp/a.pdf" = "/tmp/a.pdf".
Proof. repeat split; reflexivity. Qed.

(** The scenario of a batch of two URLs of which the second is missing:
    one success and one failure, a single file written, a sleep after each
    attempt. *)
Example two_files_scenario :
  exists st',
    download_pdfs_from_list two_files_world
      ["https://x/a.pdf"; "https://x/b.pdf"] "out" 1 st0
    = (Return (["https://x/a.pdf"], ["https://x/b.pdf"]), st')
    /\ map_to_list (files st') = [("out/a.pdf", "%PDF-1.4 body")]
    /\ trace st'
       = [EvCall "https://x/a.pdf" "out";
          EvPrint "Successfully downloaded: a.pdf";
          EvSleep 1;
          EvCall "https://x/b.pdf" "out";
          EvPrint "Error downloading https://x/b.pdf: 404 Client Error: Not Found for url: https://x/b.pdf";
          EvSleep 1].
Proof. eexists. repeat split; vm_compute; reflexivity. Qed.

(** ** What stripping removes *)

Lemma rev_app_acc (a : string) : forall acc,
  String.rev_app a acc = String.rev a +:+ acc.
Proof.
  unfold String.rev. induction a as [|x a IH]; intros acc; [ done | ].
  simpl. rewrite IH, (IH (String x EmptyString)).
  by rewrite str_app_assoc.
Qed.

Lemma rev_app_distr (a b : string) :
  String.rev (a +:+ b) = String.rev b +:+ String.rev a.
Proof.
  unfold String.rev at 1. rewrite rev_app_app.
  fold (String.rev a). apply rev_app_acc.
Qed.

Lemma all_space_app (a b : string) :
  all_space (a +:+ b) = all_space a && all_space b.
Proof.
  induction a as [|x a IH]; [ done | ].
  rewrite str_app_cons. simpl. by rewrite IH, andb_assoc.
Qed.

Lemma all_space_rev (a : string) : all_space (String.rev a) = all_space a.
Proof.
  induction a as [|x a IH]; [ done | ].
  change (String x a) with (String x EmptyString +:+ a).
  rewrite rev_app_distr, !all_space_app, IH. apply andb_comm.
Qed.

Lemma starts_with_space_rev (s : string) :
  starts_with_space (String.rev s) = ends_with_space s.
Proof.
  induction s as [|x s IH]; [ done | ].
  change (String x s) with (String x EmptyString +:+ s).
  rewrite rev_app_distr.
  change (String x EmptyString +:+ s) with (String x s).
  destruct s as [|y s]; [ done | ].
  change (ends_with_space (String x (String y s)))
    with (ends_with_space (String y s)).
  rewrite <- IH.
  destruct (String.rev (String y s)) as [|z t] eqn:Hrev; [ | done ].
  apply (f_equal String.rev) in Hrev. rewrite rev_rev in Hrev. discriminate.
Qed.

Lemma starts_with_space_app (a b : string) :
  starts_with_space (a +:+ b) = false -> starts_with_space a = false.
Proof. by destruct a. Qed.

(** [lstrip] takes a run of whitespace off the head and stops at the first
    character that is not whitespace. *)
Lemma lstrip_splits (s : string) :
  exists lead,
    s = lead +:+ PyStr.lstrip_by PyStr.isspace s
    /\ all_space lead = true
    /\ starts_with_space (PyStr.lstrip_by PyStr.isspace s) = false.
Proof.
  induction s as [|x s (lead & Heq & Hlead & Hhead)].
  - by exists EmptyString.
  - simpl. destruct (PyStr.isspace x) eqn:Hx.
    + exists (String x lead). rewrite str_app_cons, <- Heq.
      split; [ done | ]. split; [ simpl; by rewrite Hx | done ].
    + exists EmptyString. split; [ done | ]. split; [ done | ].
      simpl. exact Hx.
Qed.

(** [str.strip()] removes exactly the leading and the trailing whitespace. *)
Lemma strip_trims (url : string) : trimmed_from url (PyStr.strip url).
Proof.
  unfold PyStr.strip, PyStr.strip_by, PyStr.rstrip_by.
  destruct (lstrip_splits url) as (lead & Hurl & Hlead & Hhead).
  set (t := PyStr.lstrip_by PyStr.isspace url) in *.
  destruct (lstrip_splits (String.rev t)) as (dael & Hrev & Hdael & Htail).
  set (u := PyStr.lstrip_by PyStr.isspace (String.rev t)) in *.
  assert (Ht : t = String.rev u +:+ String.rev dael).
  { rewrite <- rev_app_distr, <- Hrev. by rewrite rev_rev. }
  exists lead, (String.rev dael). split; [ by rewrite <- Ht | ].
  split; [ exact Hlead | ]. split; [ by rewrite all_space_rev | ].
  split.
  - rewrite Ht in Hhead. by apply starts_with_space_app in Hhead.
  - by rewrite <- starts_with_space_rev, rev_rev.
Qed.

(** ** Claims about [download_pdfs_from_list] *)

(** C1, as stated, fails on a list that repeats a URL: when the first
    attempt times out and the second one succeeds, the same URL is in both
    returned lists. *)
Lemma batch_repeated_url_in_both_lists :
  let u := "https://x/a.pdf" in
  exists st',
    download_pdfs_from_list flaky_world [u; u] "out" 1 st0
    = (Return ([u], [u]), st')
    /\ u ∈ [u; u] /\ u ∈ [u] /\ ~ ((u ∈ [u] /\ (u ∉ [u])) \/ ((u ∉ [u]) /\ u ∈ [u])).
Proof.
  eexists. split; [ vm_compute; reflexivity | ].
  split; [ apply list_elem_of_here | ].
  split; [ apply list_elem_of_here | ].
  intros [[_ H] | [H _]]; apply H, list_elem_of_here.
Qed.

(** C1 (amended): the batch returns; every position of the input goes to
    exactly one of the two lists, so that the lengths add up to the length
    of the input and the successes followed by the failures are a
    rearrangement of the input; when no URL is repeated in the input, every
    URL of the input is in exactly one of the two lists. *)
Theorem batch_partition (w : World) (urls : list string) (dir : string)
    (delay : Z) (st : State) :
  exists successful failed st',
    download_pdfs_from_list w urls dir delay st
    = (Return (successful, failed), st')
    /\ (length successful + length failed)%nat = length urls
    /\ successful ++ failed ≡ₚ urls
    /\ (NoDup urls ->
        forall u, u ∈ urls ->
          (u ∈ successful /\ (u ∉ failed)) \/ ((u ∉ successful) /\ u ∈ failed)).
Proof.
  destruct (download_pdfs_from_list_spec w urls dir delay st)
    as (flags & st' & Hlen & Hrun & _).
  exists (picks true urls flags), (picks false urls flags), st'.
  pose proof (picks_perm urls flags Hlen) as Hperm.
  split; [ exact Hrun | ].
  split; [ by apply picks_length | ].
  split; [ exact Hperm | ].
  intros Hnd u Hu.
  rewrite <- Hperm in Hnd, Hu.
  apply NoDup_app in Hnd as (_ & Hdisj & _).
  apply elem_of_app in Hu as [Hu | Hu].
  - left. split; [ done | by apply Hdisj ].
  - right. split; [ | done ]. intros Hs. by apply (Hdisj u).
Qed.

Lemma batch_partition_witness :
  let urls := ["https://x/a.pdf"; " https://x/b.pdf "] in
  exists successful failed st',
    download_pdfs_from_list flaky_world urls "out" 1 st0
    = (Return (successful, failed), st')
    /\ (("https://x/a.pdf" ∈ successful /\ ("https://x/a.pdf" ∉ failed))
        \/ (("https://x/a.pdf" ∉ successful) /\ "https://x/a.pdf" ∈ failed)).
Proof.
  intros urls.
  destruct (batch_partition flaky_world urls "out" 1 st0)
    as (s & f & st' & Hrun & _ & _ & Hex).
  exists s, f, st'. split; [ exact Hrun | ].
  apply Hex.
  - unfold urls. apply NoDup_cons. split.
    + intros H. apply list_elem_of_singleton in H. discriminate.
    + apply NoDup_singleton.
  - apply list_elem_of_here.
Defined.

(** C8: the batch calls the Fetcher once per URL, in the order of the
    input, each time with the URL stripped: what the Fetcher is given is
    the URL without the run of whitespace at its head and the run of
    whitespace at its tail, and it neither starts nor ends with
    whitespace; the successes and the failures are each a subsequence of
    the input, in the order of the input. *)
Theorem batch_order (w : World) (urls : list string) (dir : string)
    (delay : Z) (st : State) :
  exists successful failed st',
    download_pdfs_from_list w urls dir delay st
    = (Return (successful, failed), st')
    /\ (exists args,
          fetched (trace st') = fetched (trace st) ++ args
          /\ args = PyStr.strip <$> urls
          /\ Forall2 trimmed_from urls args)
    /\ successful `sublist_of` urls
    /\ failed `sublist_of` urls.
Proof.
  destruct (download_pdfs_from_list_spec w urls dir delay st)
    as (flags & st' & Hlen & Hrun & Hsch).
  exists (picks true urls flags), (picks false urls flags), st'.
  split; [ exact Hrun | ].
  split; [ | split; apply picks_sublist ].
  exists (PyStr.strip <$> urls). split; [ | split; [ done | ] ].
  - rewrite <- (fetched_schedule (trace st')), Hsch, fetched_app.
    by rewrite fetched_schedule, fetched_turns.
  - apply Forall2_fmap_r, Forall_Forall2_diag, Forall_forall.
    intros url _. apply strip_trims.
Qed.

(** C9: with a positive delay the batch sleeps [delay] right after every
    call of the Fetcher, the last one included; with a delay of zero or
    less it never sleeps. *)
Theorem batch_sleeps (w : World) (urls : list string) (dir : string)
    (delay : Z) (st : State) :
  exists lists st',
    download_pdfs_from_list w urls dir delay st = (Return lists, st')
    /\ schedule (trace st')
       = schedule (trace st)
         ++ (if 0 <? delay
             then flat_map (fun url => [EvCall (PyStr.strip url) dir; EvSleep delay]) urls
             else (fun url => EvCall (PyStr.strip url) dir) <$> urls)
    /\ slept (trace st')
       = slept (trace st)
         ++ (if 0 <? delay then replicate (length urls) delay else []).
Proof.
  destruct (download_pdfs_from_list_spec w urls dir delay st)
    as (flags & st' & Hlen & Hrun & Hsch).
  eexists _, st'. split; [ exact Hrun | ]. split.
  - rewrite Hsch. f_equal. unfold turn.
    destruct (0 <? delay); [ done | ].
    clear. induction urls as [|u urls' IH]; [ done | ]. cbn. by f_equal.
  - rewrite <- (slept_schedule (trace st')), Hsch, slept_app.
    by rewrite slept_schedule, slept_turns.
Qed.

(** C10: the strings put into the two returned lists are the strings of
    the input as they were given: each list is the selection of the input
    entries with one outcome, while the Fetcher was called with the
    stripped strings. *)
Theorem batch_records_untrimmed (w : World) (urls : list string) (dir : string)
    (delay : Z) (st : State) :
  exists flags st',
    length flags = length urls
    /\ download_pdfs_from_list w urls dir delay st
       = (Return (picks true urls flags, picks false urls flags), st')
    /\ fetched (trace st') = fetched (trace st) ++ (PyStr.strip <$> urls).
Proof.
  destruct (download_pdfs_from_list_spec w urls dir delay st)
    as (flags & st' & Hlen & Hrun & Hsch).
  exists flags, st'. split; [ exact Hlen | ]. split; [ exact Hrun | ].
  rewrite <- (fetched_schedule (trace st')), Hsch, fetched_app.
  by rewrite fetched_schedule, fetched_turns.
Qed.

Example batch_untrimmed_example :
  exists st',
    download_pdfs_from_list quiet_world ["  https://x/a.pdf "] "out" 0 st0
    = (Return (["  https://x/a.pdf "], []), st')
    /\ fetched (trace st') = ["https://x/a.pdf"].
Proof. eexists. split; vm_compute; reflexivity. Qed.

(** ** Claims about [download_pdf] *)

(** *** The two models of the Fetcher *)

Section FaultsFacts.
Variable env : Faults.Env.

Lemma io_bind_embed {A B} (c : M A) (k : A -> M B)
    (c' : Faults.IO A) (k' : A -> Faults.IO B) st :
  c' st = Faults.embed (c st) ->
  (forall a s, k' a s = Faults.embed (k a s)) ->
  Faults.io_bind c' k' st = Faults.embed (bind c k st).
Proof.
  intros Hc Hk. unfold Faults.io_bind, bind. rewrite Hc.
  destruct (c st) as [[a|e] st1]; simpl; [ apply Hk | done ].
Qed.

Lemma io_bind_Done {A B} (c : Faults.IO A) (k : A -> Faults.IO B) st b st' :
  Faults.io_bind c k st = (Faults.Done b, st') ->
  exists a st1, c st = (Faults.Done a, st1) /\ k a st1 = (Faults.Done b, st').
Proof.
  unfold Faults.io_bind. destruct (c st) as [[a|t] st1]; [ eauto | discriminate ].
Qed.

Lemma download_pdf_try_io_true url dir fn st b st' :
  Faults.download_pdf_try env url dir fn st = (Faults.Done b, st') -> b = true.
Proof.
  unfold Faults.download_pdf_try. intros H.
  repeat (apply io_bind_Done in H as (? & ? & _ & H)).
  unfold Faults.io_ret in H. congruence.
Qed.

Lemma tame_ret {A} (a : A) : Faults.tame (Faults.io_ret a).
Proof. intros st name st' H. discriminate. Qed.

Lemma tame_bind {A B} (c : Faults.IO A) (k : A -> Faults.IO B) :
  Faults.tame c -> (forall a, Faults.tame (k a)) -> Faults.tame (Faults.io_bind c k).
Proof.
  intros Hc Hk st name st'. unfold Faults.io_bind.
  specialize (Hc st name). destruct (c st) as [[a|t] st1].
  - apply Hk.
  - intros H. simplify_eq. by apply (Hc st').
Qed.

Section Uninterrupted.
Hypothesis no_interrupt : forall s, Faults.interrupt env s = None.

Lemma op_embed {A} (c : M A) st : Faults.op env c st = Faults.embed (c st).
Proof. unfold Faults.op. by rewrite no_interrupt. Qed.

Lemma tame_op {A} (c : M A) : Faults.tame (Faults.op env c).
Proof.
  intros st name st'. rewrite op_embed.
  by destruct (c st) as [[a|e] st1].
Qed.

Lemma tame_print line : Faults.tame (Faults.print env line).
Proof.
  intros st name st'. unfold Faults.print. rewrite no_interrupt.
  by destruct (Faults.print_error env st line).
Qed.

Lemma tame_write_chunks p chunks err :
  Faults.tame (Faults.write_chunks env p chunks err).
Proof.
  induction chunks as [|c chunks IH]; simpl.
  - destruct err; [ apply tame_op | apply tame_ret ].
  - apply tame_bind; [ | intros _; exact IH ].
    destruct (PyStr.truthy c); [ apply tame_op | apply tame_ret ].
Qed.

(** Without an interrupt the body of the [try] raises instances of
    [Exception] only. *)
Lemma tame_download_pdf_try url dir fn :
  Faults.tame (Faults.download_pdf_try env url dir fn).
Proof.
  unfold Faults.download_pdf_try.
  apply tame_bind; [ apply tame_op | intros _ ].
  apply tame_bind; [ apply tame_op | intros r ].
  apply tame_bind; [ apply tame_op | intros _ ].
  apply tame_bind;
    [ destruct (negb _); [ apply tame_print | apply tame_ret ] | intros _ ].
  apply tame_bind; [ apply tame_op | intros name ].
  apply tame_bind; [ apply tame_op | intros _ ].
  apply tame_bind; [ apply tame_write_chunks | intros _ ].
  apply tame_bind; [ apply tame_print | intros _; apply tame_ret ].
Qed.

Section Accepting.
Hypothesis console_ok : forall s line, Faults.print_error env s line = None.

Lemma print_embed line st :
  Faults.print env line st = Faults.embed (print line st).
Proof. unfold Faults.print. by rewrite no_interrupt, console_ok. Qed.

Lemma write_chunks_embed p chunks err : forall st,
  Faults.write_chunks env p chunks err st
  = Faults.embed (write_chunks (Faults.world env) p chunks err st).
Proof.
  induction chunks as [|c chunks IH]; intros st; simpl.
  - destruct err; [ apply op_embed | done ].
  - apply io_bind_embed; [ | intros _ s; apply IH ].
    destruct (PyStr.truthy c); [ apply op_embed | done ].
Qed.

Lemma download_pdf_try_embed url dir fn st :
  Faults.download_pdf_try env url dir fn st
  = Faults.embed (download_pdf_try (Faults.world env) url dir fn st).
Proof.
  unfold Faults.download_pdf_try, download_pdf_try.
  apply io_bind_embed; [ apply op_embed | intros _ s1 ].
  apply io_bind_embed; [ apply op_embed | intros r s2 ].
  apply io_bind_embed; [ apply op_embed | intros _ s3 ].
  apply io_bind_embed;
    [ unfold content_type_of, warning_line;
      destruct (negb _); [ apply print_embed | done ]
    | intros _ s4 ].
  apply io_bind_embed; [ apply op_embed | intros name s5 ].
  cbv zeta.
  apply io_bind_embed; [ apply op_embed | intros _ s6 ].
  apply io_bind_embed; [ apply write_chunks_embed | intros _ s7 ].
  apply io_bind_embed; [ apply print_embed | done ].
Qed.

(** On a console that accepts every line and without interrupts, the two
    models of [download_pdf] agree. *)
Lemma download_pdf_embed url dir fn st :
  Faults.download_pdf env url dir fn st
  = Faults.embed (download_pdf (Faults.world env) url dir fn st).
Proof.
  unfold Faults.download_pdf. rewrite download_pdf_try_embed, download_pdf_unfold.
  destruct (download_pdf_try _ _ _ _ _) as [[b|e] st2]; simpl; [ done | ].
  unfold Faults.io_bind. by rewrite print_embed.
Qed.

End Accepting.
End Uninterrupted.
End FaultsFacts.

(** C2, as stated, fails in two ways.  On a console that cannot encode the
    URL, the line of the success raises inside the [try], the clause that
    catches it prints a line with the URL, and that [print] raises out of
    [download_pdf], after the file was written.  And an exception that is
    not an instance of [Exception], such as the [KeyboardInterrupt] of a
    Control-C, is caught by neither clause. *)
Lemma download_pdf_can_raise :
  (exists st',
      Faults.download_pdf ascii_console_env accented_url "out" None st0
      = (Faults.Thrown
           (Faults.AnException
              (OtherException
                 "'ascii' codec can't encode character: ordinal not in range(128)")),
         st')
      /\ files st' !! accented_path = Some "%PDF-1.4 body")
  /\ (exists st',
        Faults.download_pdf interrupted_env "https://x/a.pdf" "out" None st0
        = (Faults.Thrown (Faults.ABaseException "KeyboardInterrupt"), st')).
Proof.
  split.
  - eexists. split; vm_compute; reflexivity.
  - eexists. vm_compute. reflexivity.
Qed.

(** C2 (amended): as long as no exception outside [Exception] arrives and
    the console accepts the line that an [except] clause prints,
    [download_pdf] returns exactly one boolean and raises nothing: [True]
    when the body of the [try] completes, and [False], with the line of
    the failure printed, for whatever instance of [Exception] the body
    raises, be it of the network layer or any other fault, a failed
    [print] of the body included. *)
Theorem download_pdf_returns_unless_interrupted (env : Faults.Env)
    (url dir : string) (fn : option string) (st : State) :
  (forall s, Faults.interrupt env s = None) ->
  (forall s e, Faults.print_error env s (failure_line url e) = None) ->
  exists success st',
    Faults.download_pdf env url dir fn st = (Faults.Done success, st')
    /\ match Faults.download_pdf_try env url dir fn (entered url dir st) with
       | (Faults.Done _, st2) => success = true /\ st' = st2
       | (Faults.Thrown (Faults.AnException e), st2) =>
           success = false /\ st' = logged (failure_line url e) st2
       | (Faults.Thrown (Faults.ABaseException _), _) => False
       end.
Proof.
  intros Hint Hline. unfold Faults.download_pdf.
  pose proof (tame_download_pdf_try env Hint url dir fn (entered url dir st))
    as Htame.
  destruct (Faults.download_pdf_try env url dir fn (entered url dir st))
    as [[b|[e|name]] st2] eqn:Htry.
  - apply download_pdf_try_io_true in Htry as ->. by exists true, st2.
  - exists false, (logged (failure_line url e) st2). split; [ | done ].
    unfold Faults.io_bind, Faults.print. by rewrite Hint, Hline.
  - by destruct (Htame name st2).
Qed.

Lemma download_pdf_returns_unless_interrupted_witness :
  exists success st',
    Faults.download_pdf picky_console_env "https://x/a.pdf" "out" None st0
    = (Faults.Done success, st')
    /\ match Faults.download_pdf_try picky_console_env "https://x/a.pdf" "out"
               None (entered "https://x/a.pdf" "out" st0) with
       | (Faults.Done _, st2) => success = true /\ st' = st2
       | (Faults.Thrown (Faults.AnException e), st2) =>
           success = false
           /\ st' = logged (failure_line "https://x/a.pdf" e) st2
       | (Faults.Thrown (Faults.ABaseException _), _) => False
       end.
Proof.
  apply (download_pdf_returns_unless_interrupted picky_console_env
           "https://x/a.pdf" "out" None st0).
  - intros s. reflexivity.
  - intros s e. destruct e; reflexivity.
Defined.

(** On the console that refuses the line of the success, the download is
    written and then reported as a failure. *)
Example picky_console_example :
  exists st',
    Faults.download_pdf picky_console_env "https://x/a.pdf" "out" None st0
    = (Faults.Done false, st')
    /\ files st' !! "out/a.pdf" = Some "%PDF-1.4 body"
    /\ printed (trace st')
       = ["Unexpected error downloading https://x/a.pdf: [Errno 32] Broken pipe"].
Proof. eexists. repeat split; vm_compute; reflexivity. Qed.

(** C4, as stated, fails: when the directory cannot be created the call
    does return [False], but the failure goes through the generic
    [except Exception] clause; the line it prints is the one of an
    unexpected error and nothing mentions a directory error. *)
Lemma mkdir_failure_has_no_reason_of_its_own :
  let url := "https://x/a.pdf" in
  mkdir_error readonly_world (entered url "out" st0) "out"
  = Some "[Errno 13] Permission denied: 'out'"
  /\ exists st',
      download_pdf readonly_world url "out" None st0 = (Return false, st')
      /\ printed (trace st')
         = ["Unexpected error downloading https://x/a.pdf: [Errno 13] Permission denied: 'out'"]
      /\ existsb (PyStr.contains "directory-error") (printed (trace st')) = false
      /\ printed (trace st')
         = [failure_line url (OtherException "[Errno 13] Permission denied: 'out'")].
Proof.
  split; [ reflexivity | ].
  eexists. split; [ vm_compute; reflexivity | ].
  repeat split; vm_compute; reflexivity.
Qed.

(** C4 (amended): if creating the target directory fails, [download_pdf]
    returns [False] without sending a request, and prints the line of the
    generic clause, Unexpected error downloading <url>: <text of the
    error>, the same as for any other fault that is not a
    [RequestException]. *)
Theorem mkdir_failure_is_unexpected_error (w : World) (url dir : string)
    (fn : option string) (st : State) (msg : string) :
  mkdir_error w (entered url dir st) dir = Some msg ->
  download_pdf w url dir fn st
  = (Return false,
     logged ("Unexpected error downloading " +:+ url +:+ ": " +:+ msg)
            (entered url dir st)).
Proof.
  intros Hmk. rewrite download_pdf_unfold. unfold download_pdf_try.
  rewrite (bind_raise _ _ _ (OtherException msg) (entered url dir st));
    [ reflexivity | ].
  unfold mkdir. by rewrite Hmk.
Qed.

Lemma mkdir_failure_is_unexpected_error_witness :
  download_pdf readonly_world "https://x/a.pdf" "out" None st0
  = (Return false,
     logged ("Unexpected error downloading " +:+ "https://x/a.pdf" +:+ ": "
             +:+ "[Errno 13] Permission denied: 'out'")
            (entered "https://x/a.pdf" "out" st0)).
Proof.
  apply (mkdir_failure_is_unexpected_error readonly_world "https://x/a.pdf"
           "out" None st0 "[Errno 13] Permission denied: 'out'").
  reflexivity.
Defined.

(** C5, as stated, fails: a response whose status is outside 200-299 but
    below 400 passes [raise_for_status]; the call goes on, writes a file
    and returns [True]. *)
Lemma status_304_is_a_success :
  let url := "https://x/a.pdf" in
  exists r st',
    requests_get not_modified_world (entered url "out" st0) url = Return r
    /\ status_code r = 304
    /\ ~ (200 <= status_code r < 300)
    /\ download_pdf not_modified_world url "out" None st0 = (Return true, st')
    /\ files st' !! "out/a.pdf" = Some EmptyString.
Proof.
  eexists _, _. split; [ reflexivity | ].
  split; [ reflexivity | ].
  split; [ simpl; lia | ].
  split; vm_compute; reflexivity.
Qed.

(** C5 (amended): for every response with a status from 400 to 599,
    [download_pdf] returns [False]; the line it prints carries the message
    of the [HTTPError], which starts with the status code, followed by
    Client Error or Server Error; nothing is raised to the caller and no
    file is written. *)
Theorem http_error_status_is_failure (w : World) (url dir : string)
    (fn : option string) (st : State) (r : Response) :
  mkdir_error w (entered url dir st) dir = None ->
  requests_get w (entered url dir st) url = Return r ->
  400 <= status_code r < 600 ->
  exists kind,
    (kind = "Client" \/ kind = "Server")
    /\ download_pdf w url dir fn st
       = (Return false,
          logged ("Error downloading " +:+ url +:+ ": "
                  +:+ PyStr.str_of_int (status_code r) +:+ " " +:+ kind
                  +:+ " Error: " +:+ reason r +:+ " for url: " +:+ resp_url r)
                 (entered url dir st)).
Proof.
  intros Hmk Hget Hcode.
  assert (Hmsg : exists kind, (kind = "Client" \/ kind = "Server")
            /\ http_error_msg r
               = PyStr.str_of_int (status_code r) +:+ " " +:+ kind
                 +:+ " Error: " +:+ reason r +:+ " for url: " +:+ resp_url r).
  { unfold http_error_msg.
    destruct ((400 <=? status_code r) && (status_code r <? 500)) eqn:H4.
    - exists "Client". split; [ by left | reflexivity ].
    - exists "Server". split; [ by right | ].
      replace ((500 <=? status_code r) && (status_code r <? 600)) with true
        by (symmetry; apply andb_true_iff; split; lia).
      reflexivity. }
  destruct Hmsg as (kind & Hkind & Hmsg).
  exists kind. split; [ exact Hkind | ].
  rewrite download_pdf_unfold. unfold download_pdf_try.
  erewrite bind_step by (unfold mkdir; by rewrite Hmk).
  erewrite bind_step by (unfold http_get; by rewrite Hget).
  rewrite (bind_raise _ _ _ (RequestException (http_error_msg r))
             (entered url dir st)).
  - simpl. by rewrite Hmsg.
  - unfold raise_for_status. rewrite Hmsg.
    rewrite truthy_app_r; [ reflexivity | reflexivity ].
Qed.

Lemma http_error_status_is_failure_witness :
  exists kind,
    (kind = "Client" \/ kind = "Server")
    /\ download_pdf not_found_world "https://x/b.pdf" "out" None st0
       = (Return false,
          logged ("Error downloading " +:+ "https://x/b.pdf" +:+ ": "
                  +:+ PyStr.str_of_int 404 +:+ " " +:+ kind
                  +:+ " Error: " +:+ "Not Found" +:+ " for url: "
                  +:+ "https://x/b.pdf")
                 (entered "https://x/b.pdf" "out" st0)).
Proof.
  apply (http_error_status_is_failure not_found_world "https://x/b.pdf" "out"
           None st0 (mkResponse 404 "Not Found" "https://x/b.pdf" [] [] None)).
  - reflexivity.
  - reflexivity.
  - simpl. lia.
Defined.

(** ** The name under which the body is saved *)

Lemma stateless_ret {A} (a : A) : stateless (ret a).
Proof. by intros st. Qed.

Lemma stateless_raise {A} (e : exn) : stateless (@raise A e).
Proof. by intros st. Qed.

Lemma stateless_bind {A B} (c : M A) (k : A -> M B) :
  stateless c -> (forall a, stateless (k a)) -> stateless (bind c k).
Proof.
  intros Hc Hk st. unfold bind. specialize (Hc st).
  destruct (c st) as [[a|e] st1]; simpl in *; subst; [ apply Hk | done ].
Qed.

Lemma stateless_run {A} (c : M A) st (a : A) :
  stateless c -> fst (c st) = Return a -> c st = (Return a, st).
Proof.
  intros Hc Hfst. specialize (Hc st).
  destruct (c st) as [res st1]; simpl in *. by subst.
Qed.

Section Resolution.
Variable w : World.

Lemma stateless_oracle_check err : stateless (UrlParse.oracle_check err).
Proof. destruct err; [ apply stateless_raise | apply stateless_ret ]. Qed.

Lemma stateless_urlsplit u : stateless (UrlParse.urlsplit w u).
Proof.
  unfold UrlParse.urlsplit.
  destruct (UrlParse.split_scheme _) as [sch rest].
  apply stateless_bind.
  - destruct (PyStr.startswith _ _); [ | apply stateless_ret ].
    destruct (UrlParse.splitnetloc rest) as [nl rest'].
    destruct (_ || _); [ apply stateless_raise | ].
    apply stateless_bind; [ | intros _; apply stateless_ret ].
    destruct (_ && _); [ apply stateless_oracle_check | apply stateless_ret ].
  - intros [nl rest'].
    destruct (if PyStr.has_char "#" rest' then _ else _) as [u1 frag].
    destruct (if PyStr.has_char "?" u1 then _ else _) as [u2 q].
    apply stateless_bind; [ | intros _; apply stateless_ret ].
    destruct (_ || _); [ apply stateless_ret | apply stateless_oracle_check ].
Qed.

Lemma stateless_urlparse u : stateless (UrlParse.urlparse w u).
Proof.
  unfold UrlParse.urlparse.
  apply stateless_bind; [ apply stateless_urlsplit | ].
  intros [[[[sch nl] p] q] f].
  destruct (if _ && _ then _ else _). apply stateless_ret.
Qed.

Lemma endswith_document t : PyStr.endswith ".pdf" (document_name t) = true.
Proof.
  unfold document_name. rewrite <- str_app_assoc. apply endswith_app.
Qed.

Lemma endswith_truthy name :
  PyStr.endswith ".pdf" name = true -> PyStr.truthy name = true.
Proof. by destruct name. Qed.

(** Lines 50-55 on a candidate name. *)
Lemma name_or_document_run name st :
  bind (name_or_document w (Some name))
       (fun filename =>
          ret (if PyStr.endswith ".pdf" filename then filename
               else filename +:+ ".pdf")) st
  = (Return (if PyStr.endswith ".pdf" name then name
             else document_name (time_time w st)), st).
Proof.
  unfold name_or_document, bind, now, ret.
  destruct (PyStr.endswith ".pdf" name) eqn:Hend.
  - rewrite (endswith_truthy name Hend). simpl. by rewrite Hend.
  - rewrite orb_true_r. by rewrite endswith_document.
Qed.

Lemma resolve_from_header url r st name :
  name_from_header r None = Some name -> PyStr.truthy name = true ->
  resolve_filename w url r None st = (Return (checked_name w st name), st).
Proof.
  intros Hname Htruthy.
  pose proof (name_or_document_run name st) as Hrun.
  unfold resolve_filename, name_from_url. cbn [falsy].
  rewrite Hname. cbn [falsy]. rewrite Htruthy. cbn [negb].
  unfold bind in Hrun |- *. exact Hrun.
Qed.

Lemma resolve_from_url url r st parsed :
  falsy (name_from_header r None) = true ->
  fst (UrlParse.urlparse w url st) = Return parsed ->
  resolve_filename w url r None st
  = (Return (checked_name w st (unquote w (basename (UrlParse.path parsed)))), st).
Proof.
  intros Hfalsy Hparse.
  apply (stateless_run _ _ _ (stateless_urlparse url)) in Hparse.
  pose proof (name_or_document_run
                (unquote w (basename (UrlParse.path parsed))) st) as Hrun.
  unfold resolve_filename, name_from_url. cbn [falsy]. rewrite Hfalsy.
  unfold bind in Hrun |- *. rewrite Hparse. exact Hrun.
Qed.

Lemma resolve_explicit url r st name :
  PyStr.truthy name = true ->
  resolve_filename w url r (Some name) st
  = (Return (if PyStr.endswith ".pdf" name then name else name +:+ ".pdf"),
     st).
Proof.
  intros Htruthy. unfold resolve_filename. cbn [falsy]. by rewrite Htruthy.
Qed.

End Resolution.

(** C3, as stated, fails: with no explicit filename, a name taken from the
    URL (or from the header) that lacks the suffix does not get .pdf
    appended; it is dropped for the synthesized name. *)
Lemma name_without_suffix_is_replaced :
  let url := "https://x/files/report" in
  headers_lookup "Content-Disposition" (headers (pdf_response url)) = None
  /\ (exists parsed,
        fst (UrlParse.urlparse quiet_world url st0) = Return parsed
        /\ unquote quiet_world (basename (UrlParse.path parsed)) = "report")
  /\ resolve_filename quiet_world url (pdf_response url) None st0
     = (Return "document_1700000000.pdf", st0)
  /\ "document_1700000000.pdf" <> "report" +:+ ".pdf".
Proof.
  split; [ reflexivity | ].
  split; [ eexists; split; vm_compute; reflexivity | ].
  split; [ vm_compute; reflexivity | discriminate ].
Qed.

(** C3 (amended): with no explicit filename the candidate name is the one
    parsed from the Content-Disposition header of the response (the text
    after its first filename=, without surrounding double quotes) when the
    header is there, has a filename= and that text is not empty; else it
    is the percent-decoded last path segment of the URL.  A candidate that
    ends with .pdf is the resolved name, and any other candidate (empty or
    without the suffix) is replaced by document_<unix_timestamp>.pdf.
    Only an explicit filename without the suffix has .pdf appended. *)
Theorem filename_resolution (w : World) (url : string) (r : Response)
    (st : State) :
  let document := "document_" +:+ PyStr.str_of_int (time_time w st) +:+ ".pdf" in
  let header := headers_lookup "Content-Disposition" (headers r) in
  let parsed_name content_disp :=
    PyStr.strip_chars (String dquote EmptyString)
      (nth 1 (PyStr.split "filename=" content_disp) EmptyString) in
  (forall content_disp,
      header = Some content_disp ->
      PyStr.contains "filename=" content_disp = true ->
      parsed_name content_disp <> EmptyString ->
      let name := parsed_name content_disp in
      resolve_filename w url r None st
      = (Return (if PyStr.endswith ".pdf" name then name else document), st))
  /\ (forall parsed,
      (header = None
       \/ exists content_disp,
            header = Some content_disp
            /\ (PyStr.contains "filename=" content_disp = false
                \/ parsed_name content_disp = EmptyString)) ->
      fst (UrlParse.urlparse w url st) = Return parsed ->
      let name := unquote w (basename (UrlParse.path parsed)) in
      resolve_filename w url r None st
      = (Return (if PyStr.endswith ".pdf" name then name else document), st))
  /\ (forall name,
      PyStr.truthy name = true ->
      resolve_filename w url r (Some name) st
      = (Return (if PyStr.endswith ".pdf" name then name else name +:+ ".pdf"),
         st)).
Proof.
  intros document header parsed_name. split; [ | split ].
  - intros content_disp Hhdr Hkey Hname name.
    apply resolve_from_header.
    + unfold name_from_header. fold header. by rewrite Hhdr, Hkey.
    + unfold name in *. by destruct (parsed_name content_disp).
  - intros parsed Hhdr. apply resolve_from_url.
    unfold name_from_header. fold header.
    destruct Hhdr as [-> | (content_disp & -> & [Hkey | Hname])];
      [ done | by rewrite Hkey | ].
    destruct (PyStr.contains "filename=" content_disp); [ | done ].
    fold (parsed_name content_disp). by rewrite Hname.
  - intros name. apply resolve_explicit.
Qed.

Lemma filename_resolution_witness :
  resolve_filename quiet_world "https://x/files/annual_report.pdf"
    (disposition_response "https://x/files/annual_report.pdf") None st0
  = (Return "report_2020.pdf", st0)
  /\ resolve_filename quiet_world "https://x/files/annual_report.pdf"
       (pdf_response "https://x/files/annual_report.pdf") None st0
     = (Return "annual_report.pdf", st0).
Proof.
  split.
  - apply (proj1 (filename_resolution quiet_world
                    "https://x/files/annual_report.pdf"
                    (disposition_response "https://x/files/annual_report.pdf")
                    st0)
             report_2020_disposition).
    + reflexivity.
    + reflexivity.
    + discriminate.
  - apply (proj1 (proj2 (filename_resolution quiet_world
                           "https://x/files/annual_report.pdf"
                           (pdf_response "https://x/files/annual_report.pdf")
                           st0))
             (UrlParse.mkParseResult "https" "x" "/files/annual_report.pdf"
                EmptyString EmptyString EmptyString)).
    + left. reflexivity.
    + reflexivity.
Defined.

(** ** A name taken from the path of the URL *)

Lemma rfind_from_app (d t : string) : forall i,
  0 <= i -> PyStr.has_char "/" t = false ->
  PyStr.rfind_from "/" (d +:+ String "/" t) i = i + Z.of_nat (String.length d).
Proof.
  assert (Hnone : forall s j, PyStr.has_char "/" s = false ->
                              PyStr.rfind_from "/" s j = -1).
  { induction s as [|c s IH]; intros j Hs; [ done | ].
    simpl in *. apply orb_false_iff in Hs as [Hc Hs].
    rewrite (IH _ Hs). simpl. by rewrite Hc. }
  induction d as [|c d IH]; intros i Hi Ht.
  - change (EmptyString +:+ String "/" t) with (String "/" t).
    cbn [PyStr.rfind_from]. rewrite (Hnone _ _ Ht). simpl. lia.
  - rewrite str_app_cons. cbn [PyStr.rfind_from].
    rewrite (IH (i + 1)) by (done || lia).
    replace (0 <=? i + 1 + Z.of_nat (String.length d)) with true
      by (symmetry; apply Z.leb_le; lia).
    cbn [String.length]. lia.
Qed.

Lemma basename_app (d t : string) :
  PyStr.has_char "/" t = false -> basename (d +:+ String "/" t) = t.
Proof.
  intros Ht. unfold basename, PyStr.rfind, PyStr.slice_from.
  rewrite rfind_from_app by (done || lia).
  replace (Z.to_nat (0 + Z.of_nat (String.length d) + 1))
    with (String.length (d +:+ "/")) by (rewrite str_length_app; simpl; lia).
  change (String "/" t) with ("/" +:+ t).
  rewrite <- str_app_assoc. apply drop_app_length.
Qed.

(** C6, as stated, fails: a URL can end in /report.pdf without its path
    doing so, when the ending belongs to the query (or to the fragment, or
    is the host); the last path segment is then another one. *)
Lemma url_ending_in_report_pdf_not_resolved :
  let url := "https://x/dl?file=/report.pdf" in
  PyStr.endswith "/report.pdf" url = true
  /\ headers_lookup "Content-Disposition" (headers (pdf_response url)) = None
  /\ resolve_filename quiet_world url (pdf_response url) None st0
     = (Return "document_1700000000.pdf", st0)
  /\ "document_1700000000.pdf" <> "report.pdf".
Proof.
  split; [ reflexivity | ].
  split; [ reflexivity | ].
  split; [ vm_compute; reflexivity | discriminate ].
Qed.

(** C6 (amended): for a fetch of a URL whose path component, as
    [urlparse] splits it, ends in /report.pdf, with no explicit filename
    and no Content-Disposition header in the response, the resolved
    filename is exactly report.pdf. *)
Theorem report_pdf_from_url_path (w : World) (url : string) (r : Response)
    (st : State) (parsed : UrlParse.ParseResult) (dir_part : string) :
  headers_lookup "Content-Disposition" (headers r) = None ->
  fst (UrlParse.urlparse w url st) = Return parsed ->
  UrlParse.path parsed = dir_part +:+ "/report.pdf" ->
  resolve_filename w url r None st = (Return "report.pdf", st).
Proof.
  intros Hhdr Hparse Hpath.
  rewrite (resolve_from_url w url r st parsed); [ | | exact Hparse ].
  - rewrite Hpath, basename_app by reflexivity. reflexivity.
  - unfold name_from_header. by rewrite Hhdr.
Qed.

Lemma report_pdf_from_url_path_witness :
  resolve_filename quiet_world
    "https://www.cmf.tn/sites/default/files/pdfs/report.pdf"
    (pdf_response "https://www.cmf.tn/sites/default/files/pdfs/report.pdf")
    None st0
  = (Return "report.pdf", st0).
Proof.
  apply (report_pdf_from_url_path quiet_world
           "https://www.cmf.tn/sites/default/files/pdfs/report.pdf"
           (pdf_response "https://www.cmf.tn/sites/default/files/pdfs/report.pdf")
           st0
           (UrlParse.mkParseResult "https" "www.cmf.tn"
              "/sites/default/files/pdfs/report.pdf"
              EmptyString EmptyString EmptyString)
           "/sites/default/files/pdfs").
  - reflexivity.
  - vm_compute. reflexivity.
  - reflexivity.
Defined.

(** ** Saving the body *)

Section Saving.
Variable w : World.
Variable p : string.
Hypothesis write_ok : forall st c, write_error w st p c = None.

Lemma open_wb_run st :
  open_error w st p = None ->
  open_wb w p st
  = (Return tt, mkState (<[p := EmptyString]> (files st)) (trace st)).
Proof. unfold open_wb. by intros ->. Qed.

Lemma write_chunks_run chunks : forall st,
  exists st',
    write_chunks w p chunks None st = (Return tt, st')
    /\ trace st' = trace st
    /\ files st' !! p
       = (fun old => old +:+ join_chunks chunks) <$> (files st !! p).
Proof.
  induction chunks as [|c chunks IH]; intros st.
  - exists st. split; [ done | ]. split; [ done | ].
    simpl. destruct (files st !! p) as [old|]; simpl; [ | done ].
    by rewrite str_app_nil_r.
  - cbn [write_chunks join_chunks fold_right].
    destruct (PyStr.truthy c) eqn:Hc.
    + set (st1 := mkState (alter (fun old => old +:+ c) p (files st)) (trace st)).
      destruct (IH st1) as (st' & Hrun & Htr & Hfile).
      exists st'. split; [ | split ].
      * rewrite (bind_step _ _ st tt st1); [ exact Hrun | ].
        unfold file_write. by rewrite write_ok.
      * by rewrite Htr.
      * rewrite Hfile. unfold st1. cbn [files].
        rewrite lookup_alter_eq.
        destruct (files st !! p) as [old|]; simpl; [ | done ].
        by rewrite str_app_assoc.
    + destruct (IH st) as (st' & Hrun & Htr & Hfile).
      exists st'. split; [ | split ]; [ | done | ].
      * by rewrite (bind_step _ _ st tt st).
      * rewrite Hfile. destruct c; [ done | discriminate ].
Qed.

End Saving.

(** C7: when the request succeeds, no explicit filename is given and the
    response carries the Content-Disposition header of the scenario, the
    body is saved as report_2020.pdf in the output directory, whatever the
    URL and its path; the call returns [True] and announces that name.
    (The directory can be made, the status is a success, the body arrives
    whole and the file can be opened and written.) *)
Theorem content_disposition_names_the_file (w : World) (url dir : string)
    (st : State) (r : Response) :
  let filepath := path_join dir "report_2020.pdf" in
  mkdir_error w (entered url dir st) dir = None ->
  requests_get w (entered url dir st) url = Return r ->
  200 <= status_code r < 300 ->
  headers_lookup "Content-Disposition" (headers r)
  = Some report_2020_disposition ->
  body_error r = None ->
  (forall s, open_error w s filepath = None) ->
  (forall s c, write_error w s filepath c = None) ->
  exists st',
    download_pdf w url dir None st = (Return true, st')
    /\ files st' !! filepath = Some (join_chunks (body r))
    /\ last (printed (trace st'))
       = Some "Successfully downloaded: report_2020.pdf".
Proof.
  intros filepath Hmk Hget Hcode Hhdr Hbody Hopen Hwrite.
  rewrite download_pdf_unfold. unfold download_pdf_try.
  rewrite (bind_step _ _ _ tt (entered url dir st))
    by (unfold mkdir; by rewrite Hmk).
  rewrite (bind_step _ _ _ r (entered url dir st))
    by (unfold http_get; by rewrite Hget).
  assert (Hstatus : raise_for_status r (entered url dir st)
                    = (Return tt, entered url dir st)).
  { unfold raise_for_status, http_error_msg.
    replace ((400 <=? status_code r) && (status_code r <? 500)) with false
      by (symmetry; apply andb_false_iff; left; apply Z.leb_gt; lia).
    replace ((500 <=? status_code r) && (status_code r <? 600)) with false
      by (symmetry; apply andb_false_iff; left; apply Z.leb_gt; lia).
    reflexivity. }
  rewrite (bind_step _ _ _ _ _ Hstatus).
  set (content_type := PyStr.lower _).
  set (warning := if negb (PyStr.contains "application/pdf" content_type)
                  then print _ else ret tt).
  assert (Hwarn : exists st1, warning (entered url dir st) = (Return tt, st1)).
  { unfold warning. destruct (negb _); eexists; reflexivity. }
  destruct Hwarn as (st1 & Hwarn).
  rewrite (bind_step _ _ _ _ _ Hwarn).
  assert (Hname : resolve_filename w url r None st1
                  = (Return "report_2020.pdf", st1)).
  { rewrite (resolve_from_header w url r st1 "report_2020.pdf");
      [ reflexivity | | reflexivity ].
    unfold name_from_header. rewrite Hhdr. reflexivity. }
  rewrite (bind_step _ _ _ _ _ Hname).
  fold filepath.
  rewrite (bind_step _ _ _ _ _ (open_wb_run w filepath st1 (Hopen st1))).
  rewrite Hbody.
  destruct (write_chunks_run w filepath Hwrite (body r)
              (mkState (<[filepath := EmptyString]> (files st1)) (trace st1)))
    as (st2 & Hrun & Htr & Hfile).
  rewrite (bind_step _ _ _ _ _ Hrun).
  eexists. split; [ reflexivity | ]. split.
  - cbn [files logged]. rewrite Hfile. cbn [files].
    by rewrite lookup_insert_eq.
  - cbn [trace]. rewrite printed_app. apply last_snoc.
Qed.

Lemma content_disposition_names_the_file_witness :
  exists st',
    download_pdf disposition_world "https://x/download?id=7" "out" None st0
    = (Return true, st')
    /\ files st' !! "out/report_2020.pdf" = Some "%PDF-1.4 body"
    /\ last (printed (trace st'))
       = Some "Successfully downloaded: report_2020.pdf".
Proof.
  apply (content_disposition_names_the_file disposition_world
           "https://x/download?id=7" "out" st0
           (mkResponse 200 "OK" "https://x/download?id=7"
              [("Content-Type", "application/pdf");
               ("content-disposition", report_2020_disposition)]
              ["%PDF-1.4 "; EmptyString; "body"] None)).
  - reflexivity.
  - reflexivity.
  - simpl. lia.
  - reflexivity.
  - reflexivity.
  - intros s. reflexivity.
  - intros s c. reflexivity.
Defined.

(** ** The file that a download writes *)

Lemma state_eta (st : State) : mkState (files st) (trace st) = st.
Proof. by destruct st. Qed.

Lemma stateless_now (w : World) : stateless (now w).
Proof. by intros st. Qed.

Lemma stateless_resolve_filename (w : World) url r fn :
  stateless (resolve_filename w url r fn).
Proof.
  unfold resolve_filename.
  apply stateless_bind; [ | intros ?; apply stateless_ret ].
  destruct (falsy fn); [ | apply stateless_ret ].
  apply stateless_bind.
  - unfold name_from_url. destruct (falsy _); [ | apply stateless_ret ].
    apply stateless_bind; [ apply stateless_urlparse | ].
    intros ?; apply stateless_ret.
  - intros [name|]; unfold name_or_document.
    + destruct (_ || _); [ | apply stateless_ret ].
      apply stateless_bind; [ apply stateless_now | intros ?; apply stateless_ret ].
    + apply stateless_bind; [ apply stateless_now | intros ?; apply stateless_ret ].
Qed.

Section Writing.
Variable w : World.
Variable p : string.
Hypothesis write_ok : forall st c, write_error w st p c = None.

(** The loop appends every chunk to the file and then ends as the stream
    ended. *)
Lemma write_chunks_alter chunks err : forall st,
  write_chunks w p chunks err st
  = (match err with Some e => Raise e | None => Return tt end,
     mkState (alter (fun old => old +:+ join_chunks chunks) p (files st))
             (trace st)).
Proof.
  induction chunks as [|c chunks IH]; intros st.
  - assert (Hid : alter (fun old => old +:+ join_chunks []) p (files st)
                  = files st).
    { apply map_eq. intros q. destruct (decide (p = q)) as [<-|Hne].
      - rewrite lookup_alter_eq. destruct (files st !! p); simpl; [ | done ].
        by rewrite str_app_nil_r.
      - by rewrite lookup_alter_ne. }
    rewrite Hid, state_eta. simpl. by destruct err.
  - cbn [write_chunks join_chunks fold_right].
    destruct c as [|x c].
    + rewrite (bind_step _ _ st tt st) by reflexivity. apply IH.
    + rewrite (bind_step _ _ st tt
                 (mkState (alter (fun old => old +:+ String x c) p (files st))
                          (trace st)))
        by (cbn [PyStr.truthy]; unfold file_write; by rewrite write_ok).
      rewrite IH. cbn [files trace]. rewrite alter_alter_eq.
      do 2 f_equal. apply alter_ext. intros old _. simpl.
      apply str_app_assoc.
Qed.

Lemma open_then_write chunks err st :
  open_error w st p = None ->
  bind (open_wb w p) (fun _ => write_chunks w p chunks err) st
  = (match err with Some e => Raise e | None => Return tt end,
     with_file p (join_chunks chunks) st).
Proof.
  intros Hopen.
  rewrite (bind_step _ _ st tt
             (mkState (<[p := EmptyString]> (files st)) (trace st)))
    by (unfold open_wb; by rewrite Hopen).
  rewrite write_chunks_alter. cbn [files trace].
  by rewrite alter_insert_eq.
Qed.

End Writing.

Section Saves.
Variable w : World.

(** The run of [download_pdf] on a response that passes the status check,
    once a name is resolved and the file can be opened and written: the
    outcome is the one of the stream. *)
Lemma download_pdf_saves url dir fn st r name :
  let st1 := after_warning url r (entered url dir st) in
  let filepath := path_join dir name in
  mkdir_error w (entered url dir st) dir = None ->
  requests_get w (entered url dir st) url = Return r ->
  http_error_msg r = EmptyString ->
  fst (resolve_filename w url r fn st1) = Return name ->
  open_error w st1 filepath = None ->
  (forall s c, write_error w s filepath c = None) ->
  download_pdf w url dir fn st
  = match body_error r with
    | None =>
        (Return true,
         logged ("Successfully downloaded: " +:+ name)
                (with_file filepath (join_chunks (body r)) st1))
    | Some e =>
        (Return false,
         logged (failure_line url e)
                (with_file filepath (join_chunks (body r)) st1))
    end.
Proof.
  intros st1 filepath Hmk Hget Hcode Hname Hopen Hwrite.
  apply (stateless_run _ _ _ (stateless_resolve_filename w url r fn)) in Hname.
  rewrite download_pdf_unfold. unfold download_pdf_try.
  rewrite (bind_step _ _ _ tt (entered url dir st))
    by (unfold mkdir; by rewrite Hmk).
  rewrite (bind_step _ _ _ r (entered url dir st))
    by (unfold http_get; by rewrite Hget).
  rewrite (bind_step _ _ _ tt (entered url dir st))
    by (unfold raise_for_status; by rewrite Hcode).
  rewrite (bind_step _ _ _ tt st1)
    by (unfold st1, after_warning, warning_line, content_type_of;
        by destruct (negb _)).
  rewrite (bind_step _ _ _ _ _ Hname). fold filepath.
  pose proof (open_then_write w filepath Hwrite (body r) (body_error r) st1 Hopen)
    as Hsave.
  unfold bind in Hsave |- *.
  destruct (open_wb w filepath st1) as [[[]|e0] st2].
  - destruct (write_chunks w filepath (body r) (body_error r) st2)
      as [[[]|e1] st3]; destruct (body_error r); by simplify_eq.
  - destruct (body_error r); by simplify_eq.
Qed.

End Saves.

Lemma resolve_filename_pdf (w : World) url r fn st name st' :
  resolve_filename w url r fn st = (Return name, st') ->
  PyStr.endswith ".pdf" name = true.
Proof.
  unfold resolve_filename. intros H.
  apply bind_Return in H as (f & st1 & _ & H).
  unfold ret in H. simplify_eq.
  destruct (PyStr.endswith ".pdf" f) eqn:Hf; [ exact Hf | apply endswith_app ].
Qed.

(** X1: whatever the filename argument, the headers and the URL are, a
    name that [download_pdf] resolves ends with .pdf (so it is not
    empty). *)
Theorem resolved_name_ends_with_pdf (w : World) (url : string) (r : Response)
    (fn : option string) (st st' : State) (name : string) :
  resolve_filename w url r fn st = (Return name, st') ->
  PyStr.endswith ".pdf" name = true /\ name <> EmptyString.
Proof.
  intros H. apply resolve_filename_pdf in H. split; [ exact H | ].
  intros ->. discriminate.
Qed.

Lemma resolved_name_ends_with_pdf_witness :
  PyStr.endswith ".pdf" "notes.txt.pdf" = true /\ "notes.txt.pdf" <> EmptyString.
Proof.
  apply (resolved_name_ends_with_pdf quiet_world "https://x/a"
           (pdf_response "https://x/a") (Some "notes.txt") st0 st0).
  reflexivity.
Defined.

Lemma files_after_warning url r st :
  files (after_warning url r st) = files st.
Proof. unfold after_warning. by destruct (negb _). Qed.

Lemma passing_status (r : Response) :
  status_code r < 400 \/ 600 <= status_code r ->
  http_error_msg r = EmptyString.
Proof.
  intros Hcode. unfold http_error_msg.
  replace ((400 <=? status_code r) && (status_code r <? 500)) with false
    by (symmetry; apply andb_false_iff; lia).
  by replace ((500 <=? status_code r) && (status_code r <? 600)) with false
    by (symmetry; apply andb_false_iff; lia).
Qed.

(** X2: a download that succeeds replaces the whole content of the target
    file by the body of the response and leaves every other file as it
    was. *)
Theorem download_replaces_file (w : World) (url dir : string)
    (fn : option string) (st : State) (r : Response) (name : string) :
  let filepath := path_join dir name in
  mkdir_error w (entered url dir st) dir = None ->
  requests_get w (entered url dir st) url = Return r ->
  status_code r < 400 \/ 600 <= status_code r ->
  resolved_name w url dir fn st r = Return name ->
  body_error r = None ->
  (forall s, open_error w s filepath = None) ->
  (forall s c, write_error w s filepath c = None) ->
  exists st',
    download_pdf w url dir fn st = (Return true, st')
    /\ files st' = <[filepath := join_chunks (body r)]> (files st).
Proof.
  intros filepath Hmk Hget Hcode Hname Hbody Hopen Hwrite.
  pose proof (passing_status r Hcode) as Hmsg.
  rewrite (download_pdf_saves w url dir fn st r name
             Hmk Hget Hmsg Hname (Hopen _) Hwrite), Hbody.
  eexists. split; [ reflexivity | ].
  cbn [files logged with_file]. by rewrite files_after_warning.
Qed.

Lemma download_replaces_file_witness :
  exists st',
    download_pdf quiet_world "https://x/a.pdf" "out" None stale_state
    = (Return true, st')
    /\ files st'
       = <["out/a.pdf" := "%PDF-1.4 body"]> (files stale_state).
Proof.
  apply (download_replaces_file quiet_world "https://x/a.pdf" "out" None
           stale_state (pdf_response "https://x/a.pdf") "a.pdf").
  - reflexivity.
  - reflexivity.
  - simpl. lia.
  - vm_compute. reflexivity.
  - reflexivity.
  - intros s. reflexivity.
  - intros s c. reflexivity.
Defined.

(** X3: fetching the same URL twice under the same explicit filename, with
    the same response both times, leaves the files after the second fetch
    as they were after the first. *)
Theorem download_twice_same_files (w : World) (url dir name : string)
    (st : State) (r : Response) :
  let saved := if PyStr.endswith ".pdf" name then name else name +:+ ".pdf" in
  let filepath := path_join dir saved in
  PyStr.truthy name = true ->
  (forall s, mkdir_error w s dir = None) ->
  (forall s, requests_get w s url = Return r) ->
  status_code r < 400 \/ 600 <= status_code r ->
  body_error r = None ->
  (forall s, open_error w s filepath = None) ->
  (forall s c, write_error w s filepath c = None) ->
  exists st1 st2,
    download_pdf w url dir (Some name) st = (Return true, st1)
    /\ download_pdf w url dir (Some name) st1 = (Return true, st2)
    /\ files st1 !! filepath = Some (join_chunks (body r))
    /\ files st2 = files st1.
Proof.
  intros saved filepath Hname Hmk Hget Hcode Hbody Hopen Hwrite.
  pose proof (passing_status r Hcode) as Hmsg.
  assert (Hres : forall s, fst (resolve_filename w url r (Some name) s)
                           = Return saved).
  { intros s. by rewrite (resolve_explicit w url r s name Hname). }
  pose proof (download_pdf_saves w url dir (Some name) st r saved
                (Hmk _) (Hget _) Hmsg (Hres _) (Hopen _) Hwrite) as Hrun1.
  rewrite Hbody in Hrun1. cbv zeta in Hrun1. fold filepath in Hrun1.
  eexists _, _. split; [ exact Hrun1 | ].
  match type of Hrun1 with _ = (_, ?s1) => set (st1 := s1) end.
  pose proof (download_pdf_saves w url dir (Some name) st1 r saved
                (Hmk _) (Hget _) Hmsg (Hres _) (Hopen _) Hwrite) as Hrun2.
  rewrite Hbody in Hrun2. cbv zeta in Hrun2. fold filepath in Hrun2.
  split; [ exact Hrun2 | ]. subst st1.
  repeat (progress cbn [files logged with_file entered]
          || rewrite files_after_warning).
  split; [ apply lookup_insert_eq | apply insert_insert_eq ].
Qed.

Lemma download_twice_same_files_witness :
  exists st1 st2,
    download_pdf quiet_world "https://x/get?id=3" "out" (Some "a") stale_state
    = (Return true, st1)
    /\ download_pdf quiet_world "https://x/get?id=3" "out" (Some "a") st1
       = (Return true, st2)
    /\ files st1 !! "out/a.pdf" = Some "%PDF-1.4 body"
    /\ files st2 = files st1.
Proof.
  apply (download_twice_same_files quiet_world "https://x/get?id=3" "out" "a"
           stale_state (pdf_response "https://x/get?id=3")).
  - reflexivity.
  - intros s. reflexivity.
  - intros s. reflexivity.
  - left. simpl. lia.
  - reflexivity.
  - intros s. reflexivity.
  - intros s c. reflexivity.
Defined.

(** X4: when the stream breaks after the response passed the status
    check, [download_pdf] returns [False] and prints the failure, and the
    target file is left on the disk with the chunks received so far: a
    partial file is not removed. *)
Theorem broken_stream_leaves_partial_file (w : World) (url dir : string)
    (fn : option string) (st : State) (r : Response) (name : string)
    (e : exn) :
  let filepath := path_join dir name in
  mkdir_error w (entered url dir st) dir = None ->
  requests_get w (entered url dir st) url = Return r ->
  status_code r < 400 \/ 600 <= status_code r ->
  resolved_name w url dir fn st r = Return name ->
  body_error r = Some e ->
  (forall s, open_error w s filepath = None) ->
  (forall s c, write_error w s filepath c = None) ->
  exists st',
    download_pdf w url dir fn st = (Return false, st')
    /\ files st' = <[filepath := join_chunks (body r)]> (files st)
    /\ last (printed (trace st')) = Some (failure_line url e).
Proof.
  intros filepath Hmk Hget Hcode Hname Hbody Hopen Hwrite.
  pose proof (passing_status r Hcode) as Hmsg.
  rewrite (download_pdf_saves w url dir fn st r name
             Hmk Hget Hmsg Hname (Hopen _) Hwrite), Hbody.
  eexists. split; [ reflexivity | ]. split.
  - cbn [files logged with_file]. by rewrite files_after_warning.
  - cbn [trace logged]. rewrite printed_app. apply last_snoc.
Qed.

Lemma broken_stream_leaves_partial_file_witness :
  exists st',
    download_pdf broken_stream_world "https://x/a.pdf" "out" None st0
    = (Return false, st')
    /\ files st' = <["out/a.pdf" := "%PDF-1.4 half"]> (files st0)
    /\ last (printed (trace st'))
       = Some "Error downloading https://x/a.pdf: Connection broken".
Proof.
  apply (broken_stream_leaves_partial_file broken_stream_world
           "https://x/a.pdf" "out" None st0
           (mkResponse 200 "OK" "https://x/a.pdf"
              [("Content-Type", "application/pdf")]
              ["%PDF-1.4 "; "half"]
              (Some (RequestException "Connection broken")))
           "a.pdf" (RequestException "Connection broken")).
  - reflexivity.
  - reflexivity.
  - left. simpl. lia.
  - vm_compute. reflexivity.
  - reflexivity.
  - intros s. reflexivity.
  - intros s c. reflexivity.
Defined.

(** X5: the check of the content type is advisory: a response whose
    Content-Type does not mention application/pdf is saved all the same
    and the call returns [True]; the only difference is a warning printed
    before the line of the success. *)
Theorem content_type_is_advisory (w : World) (url dir : string)
    (fn : option string) (st : State) (r : Response) (name : string) :
  let filepath := path_join dir name in
  mkdir_error w (entered url dir st) dir = None ->
  requests_get w (entered url dir st) url = Return r ->
  status_code r < 400 \/ 600 <= status_code r ->
  PyStr.contains "application/pdf" (content_type_of r) = false ->
  resolved_name w url dir fn st r = Return name ->
  body_error r = None ->
  (forall s, open_error w s filepath = None) ->
  (forall s c, write_error w s filepath c = None) ->
  exists st',
    download_pdf w url dir fn st = (Return true, st')
    /\ files st' !! filepath = Some (join_chunks (body r))
    /\ printed (trace st')
       = printed (trace st)
         ++ [warning_line url r; "Successfully downloaded: " +:+ name].
Proof.
  intros filepath Hmk Hget Hcode Hct Hname Hbody Hopen Hwrite.
  pose proof (passing_status r Hcode) as Hmsg.
  rewrite (download_pdf_saves w url dir fn st r name
             Hmk Hget Hmsg Hname (Hopen _) Hwrite), Hbody.
  eexists. split; [ reflexivity | ]. split.
  - cbn [files logged with_file]. apply lookup_insert_eq.
  - cbn [trace logged with_file]. unfold after_warning. rewrite Hct.
    cbn [negb trace logged entered]. rewrite !printed_app. simpl.
    by rewrite app_nil_r, <- app_assoc.
Qed.

Lemma content_type_is_advisory_witness :
  exists st',
    download_pdf html_world "https://x/page.pdf" "out" None st0
    = (Return true, st')
    /\ files st' !! "out/page.pdf" = Some "<html></html>"
    /\ printed (trace st')
       = [ "Warning: URL https://x/page.pdf might not be a PDF (Content-Type: text/html; charset=utf-8)";
           "Successfully downloaded: page.pdf" ].
Proof.
  apply (content_type_is_advisory html_world "https://x/page.pdf" "out" None
           st0
           (mkResponse 200 "OK" "https://x/page.pdf"
              [("Content-Type", "text/html; charset=UTF-8")]
              ["<html></html>"] None)
           "page.pdf").
  - reflexivity.
  - reflexivity.
  - left. simpl. lia.
  - reflexivity.
  - vm_compute. reflexivity.
  - reflexivity.
  - intros s. reflexivity.
  - intros s c. reflexivity.
Defined.

(** X6: when [requests.get] raises a [RequestException] (no connection, a
    timeout, too many redirects), [download_pdf] returns [False], prints
    Error downloading <url>: <text of the exception>, and touches no
    file. *)
Theorem transport_failure_is_reported (w : World) (url dir : string)
    (fn : option string) (st : State) (msg : string) :
  mkdir_error w (entered url dir st) dir = None ->
  requests_get w (entered url dir st) url = Raise (RequestException msg) ->
  download_pdf w url dir fn st
  = (Return false,
     logged ("Error downloading " +:+ url +:+ ": " +:+ msg)
            (entered url dir st)).
Proof.
  intros Hmk Hget. rewrite download_pdf_unfold. unfold download_pdf_try.
  rewrite (bind_step _ _ _ tt (entered url dir st))
    by (unfold mkdir; by rewrite Hmk).
  rewrite (bind_raise _ _ _ (RequestException msg) (entered url dir st));
    [ reflexivity | ].
  unfold http_get. by rewrite Hget.
Qed.

Lemma transport_failure_is_reported_witness :
  download_pdf offline_world "https://x/a.pdf" "out" None st0
  = (Return false,
     logged ("Error downloading " +:+ "https://x/a.pdf" +:+ ": "
             +:+ "Connection refused")
            (entered "https://x/a.pdf" "out" st0)).
Proof.
  apply (transport_failure_is_reported offline_world "https://x/a.pdf" "out"
           None st0 "Connection refused"); reflexivity.
Defined.

(** X7: when the target file cannot be opened, [download_pdf] returns
    [False] through the generic clause and the files are as they were: no
    file is created or emptied. *)
Theorem open_failure_writes_nothing (w : World) (url dir : string)
    (fn : option string) (st : State) (r : Response) (name msg : string) :
  mkdir_error w (entered url dir st) dir = None ->
  requests_get w (entered url dir st) url = Return r ->
  status_code r < 400 \/ 600 <= status_code r ->
  resolved_name w url dir fn st r = Return name ->
  open_error w (after_warning url r (entered url dir st)) (path_join dir name)
  = Some msg ->
  exists st',
    download_pdf w url dir fn st = (Return false, st')
    /\ files st' = files st
    /\ last (printed (trace st'))
       = Some ("Unexpected error downloading " +:+ url +:+ ": " +:+ msg).
Proof.
  intros Hmk Hget Hcode Hname Hopen.
  pose proof (passing_status r Hcode) as Hmsg.
  apply (stateless_run _ _ _ (stateless_resolve_filename w url r fn)) in Hname.
  rewrite download_pdf_unfold. unfold download_pdf_try.
  rewrite (bind_step _ _ _ tt (entered url dir st))
    by (unfold mkdir; by rewrite Hmk).
  rewrite (bind_step _ _ _ r (entered url dir st))
    by (unfold http_get; by rewrite Hget).
  rewrite (bind_step _ _ _ tt (entered url dir st))
    by (unfold raise_for_status; by rewrite Hmsg).
  rewrite (bind_step _ _ _ tt (after_warning url r (entered url dir st)))
    by (unfold after_warning, warning_line, content_type_of;
        by destruct (negb _)).
  rewrite (bind_step _ _ _ _ _ Hname).
  rewrite (bind_raise _ _ _ (OtherException msg)
             (after_warning url r (entered url dir st)))
    by (unfold open_wb; by rewrite Hopen).
  eexists. split; [ reflexivity | ]. split.
  - cbn [files logged]. by rewrite files_after_warning.
  - cbn [trace logged]. rewrite printed_app. apply last_snoc.
Qed.

Lemma open_failure_writes_nothing_witness :
  exists st',
    download_pdf full_disk_world "https://x/a.pdf" "out" None stale_state
    = (Return false, st')
    /\ files st' = files stale_state
    /\ last (printed (trace st'))
       = Some ("Unexpected error downloading " +:+ "https://x/a.pdf" +:+ ": "
               +:+ "[Errno 28] No space left on device").
Proof.
  apply (open_failure_writes_nothing full_disk_world "https://x/a.pdf" "out" None
           stale_state (pdf_response "https://x/a.pdf") "a.pdf").
  - reflexivity.
  - reflexivity.
  - left. simpl. lia.
  - vm_compute. reflexivity.
  - reflexivity.
Defined.

(** ** Operations that leave the state alone *)

Section Frame.
Variable w : World.

Lemma stateless_mkdir d : stateless (mkdir w d).
Proof. intros st. unfold mkdir. by destruct (mkdir_error w st d). Qed.

Lemma stateless_http_get u : stateless (http_get w u).
Proof. by intros st. Qed.

Lemma stateless_raise_for_status r : stateless (raise_for_status r).
Proof.
  unfold raise_for_status.
  destruct (PyStr.truthy _); [ apply stateless_raise | apply stateless_ret ].
Qed.

End Frame.

(** ** What a call prints *)

Lemma silent_ret {A} (a : A) : silent (ret a).
Proof. by intros st. Qed.

Lemma silent_raise {A} (e : exn) : silent (@raise A e).
Proof. by intros st. Qed.

Lemma silent_bind {A B} (c : M A) (k : A -> M B) :
  silent c -> (forall a, silent (k a)) -> silent (bind c k).
Proof.
  intros Hc Hk st. unfold bind. specialize (Hc st).
  destruct (c st) as [[a|e] st1]; simpl in *; [ | exact Hc ].
  by rewrite Hk.
Qed.

Section Printing.
Variable w : World.

Lemma silent_open_wb p : silent (open_wb w p).
Proof. intros st. unfold open_wb. by destruct (open_error w st p). Qed.

Lemma silent_write_chunks p chunks err : silent (write_chunks w p chunks err).
Proof.
  induction chunks as [|c chunks IH]; simpl.
  - destruct err; [ apply silent_raise | apply silent_ret ].
  - apply silent_bind; [ | intros _; exact IH ].
    destruct (PyStr.truthy c); [ | apply silent_ret ].
    intros st. unfold file_write. by destruct (write_error w st p c).
Qed.

(** Lines 36-67: nothing is printed before the line of the success. *)
Lemma save_trace url dir r fn st :
  match bind (resolve_filename w url r fn)
             (fun filename =>
                bind (open_wb w (path_join dir filename))
                  (fun _ =>
                     bind (write_chunks w (path_join dir filename) (body r)
                             (body_error r))
                       (fun _ =>
                          bind (print ("Successfully downloaded: " +:+ filename))
                            (fun _ => ret true)))) st with
  | (Return _, st') =>
      exists name,
        PyStr.endswith ".pdf" name = true
        /\ trace st' = trace st ++ [EvPrint ("Successfully downloaded: " +:+ name)]
  | (Raise _, st') => trace st' = trace st
  end.
Proof.
  unfold bind.
  pose proof (stateless_resolve_filename w url r fn st) as Hst.
  destruct (resolve_filename w url r fn st) as [[name|e] st1] eqn:Hname;
    simpl in Hst; subst st1; [ | done ].
  apply resolve_filename_pdf in Hname.
  pose proof (silent_open_wb (path_join dir name) st) as Hopen.
  destruct (open_wb w (path_join dir name) st) as [[[]|e] st2];
    simpl in Hopen; [ | done ].
  pose proof (silent_write_chunks (path_join dir name) (body r)
                (body_error r) st2) as Hwr.
  destruct (write_chunks w (path_join dir name) (body r) (body_error r) st2)
    as [[[]|e] st3]; simpl in Hwr; [ | congruence ].
  exists name. split; [ exact Hname | ]. simpl. congruence.
Qed.

Lemma try_trace url dir fn st :
  exists warnings,
    (warnings = []
     \/ exists r, requests_get w st url = Return r
                  /\ warnings = [warning_line url r])
    /\ match download_pdf_try w url dir fn st with
       | (Return _, st') =>
           exists name,
             PyStr.endswith ".pdf" name = true
             /\ trace st'
                = trace st
                  ++ (EvPrint <$> warnings
                                  ++ ["Successfully downloaded: " +:+ name])
       | (Raise _, st') => trace st' = trace st ++ (EvPrint <$> warnings)
       end.
Proof.
  unfold download_pdf_try. unfold bind at 1.
  pose proof (stateless_mkdir w dir st) as H1.
  destruct (mkdir w dir st) as [[[]|e] st1]; simpl in H1; subst st1;
    [ | exists []; split; [ by left | simpl; by rewrite app_nil_r ] ].
  unfold bind at 1. unfold http_get at 1.
  destruct (requests_get w st url) as [r|e] eqn:Hget;
    [ | exists []; split; [ by left | simpl; by rewrite app_nil_r ] ].
  unfold bind at 1.
  pose proof (stateless_raise_for_status r st) as H3.
  destruct (raise_for_status r st) as [[[]|e] st1]; simpl in H3; subst st1;
    [ | exists []; split; [ by left | simpl; by rewrite app_nil_r ] ].
  unfold bind at 1.
  destruct (negb _).
  - exists [warning_line url r]. split; [ right; by exists r | ].
    change (print _ st) with (Return tt, logged (warning_line url r) st).
    pose proof (save_trace url dir r fn (logged (warning_line url r) st))
      as Hsave.
    cbv beta iota.
    destruct (bind (resolve_filename w url r fn) _
                (logged (warning_line url r) st)) as [[b|e] st'].
    + destruct Hsave as (name & Hpdf & Htr). exists name.
      split; [ exact Hpdf | ]. rewrite Htr. simpl. by rewrite <- app_assoc.
    + by rewrite Hsave.
  - exists []. split; [ by left | ].
    change (ret tt st) with (Return tt, st).
    pose proof (save_trace url dir r fn st) as Hsave.
    cbv beta iota.
    destruct (bind (resolve_filename w url r fn) _ st) as [[b|e] st'].
    + destruct Hsave as (name & Hpdf & Htr). by exists name.
    + simpl. by rewrite app_nil_r.
Qed.

End Printing.

(** X9: one call of [download_pdf] prints one line about its outcome,
    preceded by at most one warning, which is the warning about the
    content type of the response received: when the [try] body completes
    the result is [True] and the line announces a saved name that ends
    with .pdf; when the body raises an exception the result is [False]
    and the line is the failure line of that very exception. *)
Theorem download_prints_its_outcome (w : World) (url dir : string)
    (fn : option string) (st : State) :
  exists success st' warnings final,
    download_pdf w url dir fn st = (Return success, st')
    /\ trace st'
       = trace st ++ EvCall url dir :: (EvPrint <$> warnings ++ [final])
    /\ (warnings = []
        \/ exists r, requests_get w (entered url dir st) url = Return r
                     /\ warnings = [warning_line url r])
    /\ match download_pdf_try w url dir fn (entered url dir st) with
       | (Return _, _) =>
           success = true
           /\ exists name,
                PyStr.endswith ".pdf" name = true
                /\ final = "Successfully downloaded: " +:+ name
       | (Raise e, _) => success = false /\ final = failure_line url e
       end.
Proof.
  rewrite download_pdf_unfold.
  destruct (try_trace w url dir fn (entered url dir st)) as (ws & Hws & Htr).
  destruct (download_pdf_try _ _ _ _ _) as [[b|e] st2] eqn:Htry.
  - apply download_pdf_try_true in Htry as ->.
    destruct Htr as (name & Hpdf & Htr).
    exists true, st2, ws, ("Successfully downloaded: " +:+ name).
    split; [ done | ].
    split; [ | split; [ done | split; [ done | by exists name ] ] ].
    rewrite Htr. cbn [trace entered]. by rewrite <- app_assoc.
  - exists false, (logged (failure_line url e) st2), ws, (failure_line url e).
    split; [ done | ]. split; [ | done ].
    cbn [trace logged]. rewrite Htr. cbn [trace entered].
    rewrite fmap_app. simpl. by rewrite <- !app_assoc.
Qed.

(** ** Names that come from the URL and from the header *)

(** X10: without a filename argument and without a name in the headers, a
    URL whose path is empty or ends with a slash (a bare host, a
    directory) is saved as document_<unix_timestamp>.pdf. *)
Theorem directory_url_gets_document_name (w : World) (url : string)
    (r : Response) (st : State) (parsed : UrlParse.ParseResult) :
  falsy (name_from_header r None) = true ->
  fst (UrlParse.urlparse w url st) = Return parsed ->
  (UrlParse.path parsed = EmptyString
   \/ exists d, UrlParse.path parsed = d +:+ "/") ->
  resolve_filename w url r None st
  = (Return ("document_" +:+ PyStr.str_of_int (time_time w st) +:+ ".pdf"), st).
Proof.
  intros Hhdr Hparse Hpath.
  rewrite (resolve_from_url w url r st parsed Hhdr Hparse).
  assert (Hbase : basename (UrlParse.path parsed) = EmptyString).
  { destruct Hpath as [-> | (d & ->)]; [ reflexivity | ].
    by apply (basename_app d EmptyString). }
  by rewrite Hbase.
Qed.

Lemma directory_url_gets_document_name_witness :
  resolve_filename quiet_world "https://www.cmf.tn/rapports/"
    (pdf_response "https://www.cmf.tn/rapports/") None st0
  = (Return ("document_" +:+ PyStr.str_of_int 1700000000 +:+ ".pdf"), st0).
Proof.
  apply (directory_url_gets_document_name quiet_world
           "https://www.cmf.tn/rapports/"
           (pdf_response "https://www.cmf.tn/rapports/") st0
           (UrlParse.mkParseResult "https" "www.cmf.tn" "/rapports/"
              EmptyString EmptyString EmptyString)).
  - reflexivity.
  - vm_compute. reflexivity.
  - right. exists "/rapports". reflexivity.
Defined.

(** *** Reading a quoted name back *)

(** Stripping a character that does not occur changes nothing. *)
Lemma lstrip_absent c (s : string) :
  PyStr.has_char c s = false ->
  PyStr.lstrip_by (fun x => PyStr.has_char x (String c EmptyString)) s = s.
Proof.
  destruct s as [|x s]; [ done | ]. simpl. intros H.
  apply orb_false_iff in H as [Hx _].
  by rewrite char_eqb_sym, Hx.
Qed.

Lemma strip_quoted c (s : string) :
  PyStr.has_char c s = false ->
  PyStr.strip_chars (String c EmptyString) (String c (s +:+ String c EmptyString))
  = s.
Proof.
  intros Hs. unfold PyStr.strip_chars, PyStr.strip_by, PyStr.rstrip_by.
  pose proof (lstrip_absent c) as Habs.
  set (f := fun x => PyStr.has_char x (String c EmptyString)) in *.
  assert (Hfc : f c = true).
  { unfold f. simpl. unfold PyStr.char_eqb. by rewrite Ascii.eqb_refl. }
  cbn [PyStr.lstrip_by]. rewrite Hfc.
  destruct s as [|x s].
  - change (EmptyString +:+ String c EmptyString) with (String c EmptyString).
    cbn [PyStr.lstrip_by]. by rewrite Hfc.
  - assert (Hrev : PyStr.has_char c (String.rev (String x s)) = false).
    { unfold String.rev. by rewrite has_char_rev_app, Hs. }
    assert (Hfx : f x = false).
    { unfold f. simpl. simpl in Hs. apply orb_false_iff in Hs as [Hx _].
      by rewrite char_eqb_sym, Hx. }
    rewrite str_app_cons. cbn [PyStr.lstrip_by]. rewrite Hfx.
    change (String x (s +:+ String c EmptyString))
      with (String x s +:+ String c EmptyString).
    unfold String.rev at 2. rewrite rev_app_app.
    fold (String.rev (String x s)).
    cbn [String.rev_app PyStr.lstrip_by]. rewrite Hfc.
    rewrite (Habs _ Hrev). apply rev_rev.
Qed.

Lemma startswith_app_absent c (sep : string) : forall a,
  PyStr.has_char c sep = false ->
  PyStr.startswith sep (a +:+ String c EmptyString) = PyStr.startswith sep a.
Proof.
  induction sep as [|x sep IH]; intros a Hc; [ by destruct a | ].
  simpl in Hc. apply orb_false_iff in Hc as [Hx Hsep].
  destruct a as [|y a].
  - simpl. by rewrite Hx.
  - rewrite str_app_cons. simpl. by rewrite IH.
Qed.

Lemma contains_app_absent c (sep a : string) :
  PyStr.has_char c sep = false ->
  PyStr.contains sep (a +:+ String c EmptyString) = PyStr.contains sep a.
Proof.
  intros Hc. induction a as [|y a IH].
  - change (EmptyString +:+ String c EmptyString) with (String c EmptyString).
    cbn [PyStr.contains].
    rewrite <- (startswith_app_absent c sep EmptyString Hc).
    change (EmptyString +:+ String c EmptyString) with (String c EmptyString).
    destruct (PyStr.startswith sep (String c EmptyString)) eqn:Hsw; [ | done ].
    destruct sep as [|x sep]; [ done | ].
    simpl in Hsw, Hc. apply orb_false_iff in Hc as [Hx _].
    by rewrite Hx in Hsw.
  - rewrite str_app_cons. cbn [PyStr.contains].
    rewrite IH. f_equal.
    change (String y (a +:+ String c EmptyString))
      with (String y a +:+ String c EmptyString).
    by apply startswith_app_absent.
Qed.

(** Without an occurrence of the separator there is one piece. *)
Lemma split_go_absent (sep : string) : forall s cur,
  PyStr.contains sep s = false ->
  PyStr.split_go sep s O cur = [String.rev_app cur s].
Proof.
  induction s as [|x s IH]; intros cur Hs; [ done | ].
  cbn [PyStr.contains] in Hs. apply orb_false_iff in Hs as [Hsw Hs].
  cbn [PyStr.split_go]. rewrite Hsw. by rewrite IH.
Qed.

Section HeaderName.
Variable r : Response.
Variable name : string.
Hypothesis header :
  headers_lookup "Content-Disposition" (headers r)
  = Some ("attachment; filename="
          +:+ String dquote (name +:+ String dquote EmptyString)).
Hypothesis no_quote : PyStr.has_char dquote name = false.
Hypothesis no_key : PyStr.contains "filename=" name = false.

Lemma name_from_quoted_header : name_from_header r None = Some name.
Proof.
  unfold name_from_header. rewrite header.
  set (quoted := String dquote (name +:+ String dquote EmptyString)).
  assert (Hq : PyStr.contains "filename=" quoted = false).
  { unfold quoted. cbn [PyStr.contains PyStr.startswith].
    replace (PyStr.char_eqb "f" dquote) with false by reflexivity.
    cbn [andb orb]. by rewrite contains_app_absent. }
  replace (PyStr.contains "filename=" ("attachment; filename=" +:+ quoted))
    with true by reflexivity.
  replace (PyStr.split "filename=" ("attachment; filename=" +:+ quoted))
    with ("attachment; " :: PyStr.split_go "filename=" quoted O EmptyString)
    by reflexivity.
  rewrite (split_go_absent _ _ _ Hq). cbn [nth String.rev_app].
  unfold quoted. by rewrite strip_quoted.
Qed.

End HeaderName.

(** X11: for every name without a double quote and without the text
    filename= in it, the header attachment; filename=<quote>name<quote>
    is read back as that name; when the name ends with .pdf it is the
    resolved filename, whatever the URL is. *)
Theorem quoted_header_name_is_read_back (w : World) (url : string)
    (r : Response) (st : State) (name : string) :
  headers_lookup "Content-Disposition" (headers r)
  = Some ("attachment; filename="
          +:+ String dquote (name +:+ String dquote EmptyString)) ->
  PyStr.has_char dquote name = false ->
  PyStr.contains "filename=" name = false ->
  name_from_header r None = Some name
  /\ (PyStr.endswith ".pdf" name = true ->
      resolve_filename w url r None st = (Return name, st)).
Proof.
  intros Hhdr Hq Hk.
  pose proof (name_from_quoted_header r name Hhdr Hq Hk) as Hname.
  split; [ exact Hname | ]. intros Hpdf.
  rewrite (resolve_from_header w url r st name Hname (endswith_truthy name Hpdf)).
  unfold checked_name. by rewrite Hpdf.
Qed.

Lemma quoted_header_name_is_read_back_witness :
  name_from_header annual_report_response None = Some "rapport annuel 2021.pdf"
  /\ (PyStr.endswith ".pdf" "rapport annuel 2021.pdf" = true ->
      resolve_filename quiet_world "https://x/dl" annual_report_response None st0
      = (Return "rapport annuel 2021.pdf", st0)).
Proof.
  apply (quoted_header_name_is_read_back quiet_world "https://x/dl"
           annual_report_response st0 "rapport annuel 2021.pdf");
    reflexivity.
Defined.

(** ** Batches one after the other *)

Section BatchCompose.
Variable w : World.
Variable dir : string.
Variable delay : Z.

Lemma batch_loop_app (l1 l2 : list string) : forall successful failed st,
  batch_loop w (l1 ++ l2) dir delay successful failed st
  = match batch_loop w l1 dir delay successful failed st with
    | (Return (s1, f1), st1) => batch_loop w l2 dir delay s1 f1 st1
    | (Raise e, st1) => (Raise e, st1)
    end.
Proof.
  induction l1 as [|url l1 IH]; intros successful failed st; [ done | ].
  cbn [app batch_loop]. unfold bind.
  destruct (download_pdf w (PyStr.strip url) dir None st) as [[b|e] st1];
    [ | done ].
  destruct ((if 0 <? delay then sleep delay else ret tt) st1)
    as [[[]|e] st2]; [ | done ].
  apply IH.
Qed.

Lemma batch_loop_acc (urls : list string) : forall successful failed st,
  batch_loop w urls dir delay successful failed st
  = match batch_loop w urls dir delay [] [] st with
    | (Return (s, f), st') => (Return (successful ++ s, failed ++ f), st')
    | (Raise e, st') => (Raise e, st')
    end.
Proof.
  induction urls as [|url urls IH]; intros successful failed st.
  - simpl. unfold ret. by rewrite !app_nil_r.
  - cbn [batch_loop]. unfold bind.
    destruct (download_pdf w (PyStr.strip url) dir None st) as [[b|e] st1];
      [ | done ].
    destruct ((if 0 <? delay then sleep delay else ret tt) st1)
      as [[[]|e] st2]; [ | done ].
    rewrite IH.
    rewrite (IH (if b then [] ++ [url] else []) (if b then [] else [] ++ [url])).
    destruct (batch_loop w urls dir delay [] [] st2) as [[[s f]|e] st3];
      [ | done ].
    destruct b; simpl; by rewrite <- ?app_assoc.
Qed.

End BatchCompose.

(** X12: a batch over two lists put end to end is the batch over the
    first list followed, from the state it leaves, by the batch over the
    second: the successes and the failures are those of the first followed
    by those of the second. *)
Theorem batch_of_appended_lists (w : World) (l1 l2 : list string)
    (dir : string) (delay : Z) (st : State) :
  exists s1 f1 st1 s2 f2 st2,
    download_pdfs_from_list w l1 dir delay st = (Return (s1, f1), st1)
    /\ download_pdfs_from_list w l2 dir delay st1 = (Return (s2, f2), st2)
    /\ download_pdfs_from_list w (l1 ++ l2) dir delay st
       = (Return (s1 ++ s2, f1 ++ f2), st2).
Proof.
  destruct (download_pdfs_from_list_spec w l1 dir delay st)
    as (flags1 & st1 & _ & Hrun1 & _).
  destruct (download_pdfs_from_list_spec w l2 dir delay st1)
    as (flags2 & st2 & _ & Hrun2 & _).
  eexists _, _, st1, _, _, st2. split; [ exact Hrun1 | ].
  split; [ exact Hrun2 | ].
  unfold download_pdfs_from_list in *.
  rewrite batch_loop_app, Hrun1, batch_loop_acc. by rewrite Hrun2.
Qed.

(** ** The entry point *)

Lemma batch_fetched (w : World) urls dir delay st lists st' :
  download_pdfs_from_list w urls dir delay st = (Return lists, st') ->
  fetched (trace st') = fetched (trace st) ++ (PyStr.strip <$> urls)
  /\ fst lists `sublist_of` urls
  /\ snd lists `sublist_of` urls.
Proof.
  intros Hrun.
  destruct (download_pdfs_from_list_spec w urls dir delay st)
    as (flags & st2 & _ & Hspec & Hsch).
  rewrite Hspec in Hrun. simplify_eq. cbn [fst snd].
  split; [ | split; apply picks_sublist ].
  rewrite <- (fetched_schedule (trace st')), Hsch, fetched_app.
  by rewrite fetched_schedule, fetched_turns.
Qed.

Lemma batch_returns (w : World) urls dir delay st :
  exists lists st',
    download_pdfs_from_list w urls dir delay st = (Return lists, st').
Proof.
  destruct (download_pdfs_from_list_spec w urls dir delay st)
    as (flags & st' & _ & Hspec & _).
  by eexists _, st'.
Qed.

Lemma print_failed_trace (failed : list string) : forall st,
  print_failed failed st
  = (Return tt,
     mkState (files st)
             (trace st ++ (EvPrint <$> ((fun url => "- " +:+ url) <$> failed)))).
Proof.
  induction failed as [|url failed IH]; intros st.
  - simpl. unfold ret. by rewrite app_nil_r, state_eta.
  - cbn [print_failed]. unfold bind, print, emit. rewrite IH.
    cbn [files trace fmap list_fmap]. by rewrite <- app_assoc.
Qed.

Lemma fetched_prints (lines : list string) : fetched (EvPrint <$> lines) = [].
Proof. by induction lines. Qed.

Section EntryPointFacts.
Variable w : World.

(** One round of the loop, from the list that failed. *)
Lemma retry_round fuel successful url failed st :
  exists s1 f1 st1 st2,
    fetched (trace st1) = fetched (trace st)
    /\ download_pdfs_from_list w (url :: failed) default_output_dir
         default_delay st1
       = (Return (s1, f1), st2)
    /\ retry_loop w (S fuel) successful (url :: failed) st
       = retry_loop w fuel s1 f1 st2.
Proof.
  set (st1 := mkState (files st)
                (trace st
                 ++ [EvPrint (String newline "Failed URLs:")]
                 ++ (EvPrint <$> ((fun u => "- " +:+ u) <$> (url :: failed))))).
  destruct (batch_returns w (url :: failed) default_output_dir default_delay st1)
    as ([s1 f1] & st2 & Hrun).
  exists s1, f1, st1, st2. split; [ | split; [ exact Hrun | ] ].
  - unfold st1. cbn [trace]. rewrite !fetched_app, fetched_prints. simpl.
    by rewrite app_nil_r.
  - cbn [retry_loop]. unfold bind at 1. unfold print at 1, emit.
    unfold bind at 1. rewrite print_failed_trace. cbn [files trace].
    unfold bind. rewrite <- app_assoc. fold st1. by rewrite Hrun.
Qed.

Lemma retry_loop_result fuel : forall successful failed st s f st',
  retry_loop w fuel successful failed st = (Return (Some (s, f)), st') ->
  f = []
  /\ (failed = [] -> s = successful)
  /\ (failed <> [] -> s `sublist_of` failed).
Proof.
  induction fuel as [|fuel IH]; intros successful failed st s f st' Hrun.
  - destruct failed; simpl in Hrun; unfold ret in Hrun; by simplify_eq.
  - destruct failed as [|url failed].
    + simpl in Hrun. unfold ret in Hrun. by simplify_eq.
    + destruct (retry_round fuel successful url failed st)
        as (s1 & f1 & st1 & st2 & _ & Hbatch & Hstep).
      rewrite Hstep in Hrun.
      apply batch_fetched in Hbatch as (_ & Hs1 & Hf1). cbn [fst snd] in *.
      apply IH in Hrun as (Hf & Hnil & Hcons).
      split; [ exact Hf | ]. split; [ done | ]. intros _.
      destruct f1 as [|u f1].
      * by rewrite Hnil.
      * etrans; [ by apply Hcons | exact Hf1 ].
Qed.

Lemma retry_loop_fetched fuel urls : forall successful failed st res st',
  failed `sublist_of` urls ->
  retry_loop w fuel successful failed st = (res, st') ->
  forall u, u ∈ fetched (trace st') ->
    u ∈ fetched (trace st) \/ u ∈ PyStr.strip <$> urls.
Proof.
  induction fuel as [|fuel IH]; intros successful failed st res st' Hsub Hrun u Hu.
  - destruct failed; simpl in Hrun; unfold ret in Hrun; simplify_eq; by left.
  - destruct failed as [|url failed].
    + simpl in Hrun. unfold ret in Hrun. simplify_eq. by left.
    + destruct (retry_round fuel successful url failed st)
        as (s1 & f1 & st1 & st2 & Hst1 & Hbatch & Hstep).
      rewrite Hstep in Hrun.
      apply batch_fetched in Hbatch as (Hfetched & _ & Hf1). cbn [snd] in Hf1.
      destruct (IH s1 f1 st2 res st' ltac:(by etrans) Hrun u Hu) as [Hold | Hin];
        [ | by right ].
      rewrite Hfetched, Hst1 in Hold.
      apply elem_of_app in Hold as [Hold | Hnew]; [ by left | right ].
      eapply list_elem_of_fmap in Hnew as (x & -> & Hx).
      apply list_elem_of_fmap. exists x. split; [ done | ].
      by eapply elem_of_sublist.
Qed.

End EntryPointFacts.

Section MainFacts.
Variable w : World.

(** The first pass and the summary, before the loop. *)
Lemma main_on_run urls fuel st :
  exists s1 f1 st1,
    download_pdfs_from_list w urls default_output_dir default_delay st
    = (Return (s1, f1), st1)
    /\ main_on w urls fuel st
       = retry_loop w fuel s1 f1 (summarized s1 f1 st1).
Proof.
  destruct (batch_returns w urls default_output_dir default_delay st)
    as ([s1 f1] & st1 & Hrun).
  exists s1, f1, st1. split; [ exact Hrun | ].
  unfold main_on. rewrite (bind_step _ _ _ _ _ Hrun). cbn [fst snd].
  unfold bind, print, emit, summarized, summary. cbn [files trace].
  by rewrite <- !app_assoc.
Qed.

Lemma fetched_summarized s f st :
  fetched (trace (summarized s f st)) = fetched (trace st).
Proof.
  unfold summarized. cbn [trace]. rewrite fetched_app, fetched_prints.
  apply app_nil_r.
Qed.

Section AllFail.
Hypothesis every_attempt_fails :
  forall st u, fst (download_pdf w u default_output_dir None st) = Return false.

Lemma batch_all_fail urls : forall successful failed st,
  exists st',
    batch_loop w urls default_output_dir default_delay successful failed st
    = (Return (successful, failed ++ urls), st').
Proof.
  induction urls as [|url urls IH]; intros successful failed st.
  - exists st. simpl. unfold ret. by rewrite app_nil_r.
  - cbn [batch_loop]. unfold bind.
    pose proof (every_attempt_fails st (PyStr.strip url)) as Hfail.
    destruct (download_pdf w (PyStr.strip url) default_output_dir None st)
      as [[b|e] st1]; simpl in Hfail; simplify_eq.
    change ((if 0 <? default_delay then sleep default_delay else ret tt) st1)
      with (sleep default_delay st1).
    unfold sleep, emit.
    destruct (IH successful (failed ++ [url])
                (mkState (files st1) (trace st1 ++ [EvSleep default_delay])))
      as (st' & Hrun).
    exists st'. rewrite Hrun. by rewrite <- app_assoc.
Qed.

Lemma retry_loop_never_ends fuel : forall successful url failed st,
  exists st',
    retry_loop w fuel successful (url :: failed) st = (Return None, st').
Proof.
  induction fuel as [|fuel IH]; intros successful url failed st.
  - by exists st.
  - destruct (retry_round w fuel successful url failed st)
      as (s1 & f1 & st1 & st2 & _ & Hbatch & Hstep).
    destruct (batch_all_fail (url :: failed) [] [] st1) as (st3 & Hall).
    unfold download_pdfs_from_list in Hbatch. rewrite Hall in Hbatch.
    simplify_eq. rewrite Hstep. apply IH.
Qed.

End AllFail.

Section AllSucceed.
Hypothesis every_attempt_succeeds :
  forall st u, fst (download_pdf w u default_output_dir None st) = Return true.

Lemma batch_all_succeed urls : forall successful failed st,
  exists st',
    batch_loop w urls default_output_dir default_delay successful failed st
    = (Return (successful ++ urls, failed), st').
Proof.
  induction urls as [|url urls IH]; intros successful failed st.
  - exists st. simpl. unfold ret. by rewrite app_nil_r.
  - cbn [batch_loop]. unfold bind.
    pose proof (every_attempt_succeeds st (PyStr.strip url)) as Hok.
    destruct (download_pdf w (PyStr.strip url) default_output_dir None st)
      as [[b|e] st1]; simpl in Hok; simplify_eq.
    change ((if 0 <? default_delay then sleep default_delay else ret tt) st1)
      with (sleep default_delay st1).
    unfold sleep, emit.
    destruct (IH (successful ++ [url]) failed
                (mkState (files st1) (trace st1 ++ [EvSleep default_delay])))
      as (st' & Hrun).
    exists st'. rewrite Hrun. by rewrite <- app_assoc.
Qed.

End AllSucceed.

End MainFacts.

(** X13: when the entry point ends, no failure is left; the successes it
    ends with are those of the first pass if that pass had no failure, and
    otherwise they are all among the URLs that failed in the first pass:
    each round replaces the list of successes, it does not add to it. *)
Theorem main_ends_without_failures (w : World) (urls : list string)
    (fuel : nat) (st st' : State) (successful failed : list string) :
  main_on w urls fuel st = (Return (Some (successful, failed)), st') ->
  exists s1 f1 st1,
    download_pdfs_from_list w urls default_output_dir default_delay st
    = (Return (s1, f1), st1)
    /\ failed = []
    /\ (f1 = [] -> successful = s1)
    /\ (f1 <> [] -> successful `sublist_of` f1).
Proof.
  intros Hmain.
  destruct (main_on_run w urls fuel st) as (s1 & f1 & st1 & Hrun & Hstep).
  rewrite Hstep in Hmain. apply retry_loop_result in Hmain.
  by exists s1, f1, st1.
Qed.

Lemma main_ends_without_failures_witness :
  exists s1 f1 st1,
    download_pdfs_from_list flaky_world ["https://x/a.pdf"; "https://x/b.pdf"]
      default_output_dir default_delay st0
    = (Return (s1, f1), st1)
    /\ @nil string = []
    /\ (f1 = [] -> ["https://x/a.pdf"] = s1)
    /\ (f1 <> [] -> ["https://x/a.pdf"] `sublist_of` f1).
Proof.
  apply (main_ends_without_failures flaky_world
           ["https://x/a.pdf"; "https://x/b.pdf"] 2 st0
           (snd (main_on flaky_world ["https://x/a.pdf"; "https://x/b.pdf"] 2 st0))).
  vm_compute. reflexivity.
Defined.

(** X14: when every attempt fails, the entry point never ends on a list
    that is not empty: however many rounds it is given, the loop is still
    retrying. *)
Theorem main_never_ends_when_all_fail (w : World) (url : string)
    (urls : list string) (fuel : nat) (st : State) :
  (forall s u, fst (download_pdf w u default_output_dir None s) = Return false) ->
  exists st', main_on w (url :: urls) fuel st = (Return None, st').
Proof.
  intros Hfail.
  destruct (main_on_run w (url :: urls) fuel st)
    as (s1 & f1 & st1 & Hrun & Hstep).
  destruct (batch_all_fail w Hfail (url :: urls) [] [] st) as (st2 & Hall).
  unfold download_pdfs_from_list in Hrun. rewrite Hall in Hrun. simplify_eq.
  rewrite Hstep. by apply retry_loop_never_ends.
Qed.

Lemma main_never_ends_when_all_fail_witness :
  exists st', main_on offline_world ("https://x/a.pdf" :: []) 5 st0
              = (Return None, st').
Proof.
  apply (main_never_ends_when_all_fail offline_world "https://x/a.pdf" [] 5 st0).
  intros s u. reflexivity.
Defined.

(** X15: when every attempt succeeds, the entry point makes one pass and
    no retry: it ends with all the URLs as successes and no failure, right
    after the summary, whose counts are the length of the list and 0. *)
Theorem main_single_pass_when_all_succeed (w : World) (urls : list string)
    (fuel : nat) (st : State) :
  (forall s u, fst (download_pdf w u default_output_dir None s) = Return true) ->
  exists st1,
    download_pdfs_from_list w urls default_output_dir default_delay st
    = (Return (urls, []), st1)
    /\ main_on w urls fuel st
       = (Return (Some (urls, [])), summarized urls [] st1).
Proof.
  intros Hok.
  destruct (main_on_run w urls fuel st) as (s1 & f1 & st1 & Hrun & Hstep).
  destruct (batch_all_succeed w Hok urls [] [] st) as (st2 & Hall).
  pose proof Hrun as Hrun'.
  unfold download_pdfs_from_list in Hrun'. rewrite Hall in Hrun'. simplify_eq.
  exists st1. split; [ exact Hrun | ].
  rewrite Hstep. by destruct fuel.
Qed.

Lemma main_single_pass_when_all_succeed_witness :
  exists st1,
    download_pdfs_from_list disposition_world pdf_urls default_output_dir
      default_delay st0
    = (Return (pdf_urls, []), st1)
    /\ main_on disposition_world pdf_urls 0 st0
       = (Return (Some (pdf_urls, [])), summarized pdf_urls [] st1).
Proof.
  apply (main_single_pass_when_all_succeed disposition_world pdf_urls 0 st0).
  intros s u. reflexivity.
Defined.

(** X16: in all its rounds the entry point only fetches URLs of its list
    (stripped): every call of the Fetcher that it adds to the trace is on
    an entry of the list. *)
Theorem main_fetches_listed_urls_only (w : World) (urls : list string)
    (fuel : nat) (st st' : State)
    (res : result (option (list string * list string))) :
  main_on w urls fuel st = (res, st') ->
  forall u, u ∈ fetched (trace st') ->
    u ∈ fetched (trace st) \/ u ∈ PyStr.strip <$> urls.
Proof.
  intros Hmain u Hu.
  destruct (main_on_run w urls fuel st) as (s1 & f1 & st1 & Hrun & Hstep).
  rewrite Hstep in Hmain.
  apply batch_fetched in Hrun as (Hfetched & _ & Hf1). cbn [snd] in Hf1.
  destruct (retry_loop_fetched w fuel urls s1 f1 _ res st' Hf1 Hmain u Hu)
    as [Hold | Hin]; [ | by right ].
  rewrite fetched_summarized, Hfetched in Hold.
  apply elem_of_app in Hold as [Hold | Hnew]; [ by left | by right ].
Qed.

Lemma main_fetches_listed_urls_only_witness :
  "https://x/a.pdf" ∈ fetched (trace st0)
  \/ "https://x/a.pdf" ∈ PyStr.strip <$> [" https://x/a.pdf"; "https://x/b.pdf "].
Proof.
  apply (main_fetches_listed_urls_only flaky_world
           [" https://x/a.pdf"; "https://x/b.pdf "] 3 st0
           (snd (main_on flaky_world
                   [" https://x/a.pdf"; "https://x/b.pdf "] 3 st0))
           (fst (main_on flaky_world
                   [" https://x/a.pdf"; "https://x/b.pdf "] 3 st0))).
  - vm_compute. reflexivity.
  - vm_compute. apply list_elem_of_here.
Defined.

(** ** A name that is an absolute path *)

(** X17: the name taken from the header is joined to the output directory
    as it is: when it starts with a slash (and ends with .pdf) the body is
    written at that absolute path and not under the output directory. *)
Theorem absolute_header_name_leaves_directory (w : World) (url dir : string)
    (st : State) (r : Response) (name : string) :
  mkdir_error w (entered url dir st) dir = None ->
  requests_get w (entered url dir st) url = Return r ->
  status_code r < 400 \/ 600 <= status_code r ->
  name_from_header r None = Some name ->
  PyStr.startswith "/" name = true ->
  PyStr.endswith ".pdf" name = true ->
  body_error r = None ->
  (forall s, open_error w s name = None) ->
  (forall s c, write_error w s name c = None) ->
  exists st',
    download_pdf w url dir None st = (Return true, st')
    /\ files st' = <[name := join_chunks (body r)]> (files st).
Proof.
  intros Hmk Hget Hcode Hname Habs Hpdf Hbody Hopen Hwrite.
  pose proof (passing_status r Hcode) as Hmsg.
  assert (Hjoin : path_join dir name = name).
  { unfold path_join. by rewrite Habs. }
  assert (Hres : fst (resolve_filename w url r None
                        (after_warning url r (entered url dir st)))
                 = Return name).
  { rewrite (resolve_from_header w url r _ name Hname
               (endswith_truthy name Hpdf)).
    unfold checked_name. by rewrite Hpdf. }
  rewrite <- Hjoin in Hopen, Hwrite.
  rewrite (download_pdf_saves w url dir None st r name
             Hmk Hget Hmsg Hres (Hopen _) Hwrite), Hbody, Hjoin.
  eexists. split; [ reflexivity | ].
  cbn [files logged with_file]. by rewrite files_after_warning.
Qed.

Lemma absolute_header_name_leaves_directory_witness :
  exists st',
    download_pdf absolute_name_world "https://x/dl" "out" None st0
    = (Return true, st')
    /\ files st' = <["/tmp/elsewhere.pdf" := "%PDF-1.4"]> (files st0).
Proof.
  apply (absolute_header_name_leaves_directory absolute_name_world
           "https://x/dl" "out" st0 absolute_name_response
           "/tmp/elsewhere.pdf").
  - reflexivity.
  - reflexivity.
  - left. simpl. lia.
  - reflexivity.
  - reflexivity.
  - reflexivity.
  - reflexivity.
  - intros s. reflexivity.
  - intros s c. reflexivity.
Defined.
